(** * temporal-order-system: the order saga, its payment sub-saga and
    their activities, embedded from the Go sources.

    - [Float64]            : IEEE-754 binary64 (Go's [float64]) on [spec_float]
    - [GoString], [errors] : byte strings, slicing, [fmt.Errorf] error values
    - [models]             : [models/order.go]
    - [PaymentActivities]  : [activities/payment_activities.go]
    - [Activities]         : [activities/order_activities.go] ([ProcessOrder])
    - [workflows]          : [workflows/payment_workflow.go] and
                             [workflows/order_workflow.go] *)

From Stdlib Require Import ZArith Bool String List SpecFloat DecimalString
  DecimalZ.
From stdpp Require Import gmap strings list.

Local Open Scope Z_scope.

(** ** Go's [float64] *)

Module Float64.

Definition prec : Z := 53.
Definition emax : Z := 1024.

Definition float64 : Type := spec_float.

(** [float64(n)] for an integer [n]: rounded to nearest, ties to even. *)
Definition of_Z (n : Z) : float64 := binary_normalize prec emax n 0 false.

Definition add (x y : float64) : float64 := SFadd prec emax x y.
Definition mul (x y : float64) : float64 := SFmul prec emax x y.

(** Go's comparison operators; each is false as soon as one side is NaN,
    except [!=], which is the negation of [==]. *)
Definition eq (x y : float64) : bool := SFeqb x y.
Definition ne (x y : float64) : bool := negb (SFeqb x y).
Definition le (x y : float64) : bool := SFleb x y.
Definition lt (x y : float64) : bool := SFltb x y.
Definition gt (x y : float64) : bool := SFltb y x.

(** The zero value of a [float64] variable. *)
Definition zero : float64 := S754_zero false.

(** The integer a float denotes, when it denotes one:
    [S754_finite s m e] stands for [(-1)^s * m * 2^e]. *)
Definition exact_Z (x : float64) : option Z :=
  match x with
  | S754_zero _ => Some 0
  | S754_finite s m e =>
      if 0 <=? e then Some (cond_Zopp s (Zpos m * 2 ^ e))
      else if (Zpos m mod 2 ^ (- e) =? 0)
           then Some (cond_Zopp s (Zpos m / 2 ^ (- e)))
           else None
  | _ => None
  end.

End Float64.

Export Float64.

(** ** Go strings (byte sequences) and slicing *)

Module GoString.

(** [len(s)], in bytes. *)
Definition len (s : string) : Z := Z.of_nat (String.length s).

(** The outcome of a Go call: it returns, or the goroutine panics. *)
Inductive outcome (A : Type) : Type :=
| Returned (a : A)
| Panicked (reason : string).
Arguments Returned {A} a.
Arguments Panicked {A} reason.

(** [s[:n]]: a run-time panic when [n] exceeds [len(s)]. *)
Definition slice_to (s : string) (n : nat) : outcome string :=
  if (Z.of_nat n <=? len s)
  then Returned (String.substring 0 n s)
  else Panicked "slice bounds out of range".

(** [s[lo:hi]]. *)
Definition slice (s : string) (lo hi : nat) : outcome string :=
  if (Z.of_nat lo <=? Z.of_nat hi) && (Z.of_nat hi <=? len s)
  then Returned (String.substring lo (hi - lo) s)
  else Panicked "slice bounds out of range".

(** The [%d] verb. *)
Definition itoa (n : Z) : string := NilZero.string_of_int (Z.to_int n).

End GoString.

Export GoString.

(** ** Error values built by [fmt.Errorf] *)

Module errors.

Inductive FmtArg : Type :=
| ArgString (s : string)
| ArgFloat (x : float64)
| ArgInt (n : Z).

(** [Errorf format args] is [fmt.Errorf] without a [%w] verb;
    [Wrapf format cause] is [fmt.Errorf(format, cause)] where the format
    ends in [%w]; [ContextErr] is what [ctx.Err()] returns once the
    context is done; [Remote] is a failure reported by the host for a
    remote task. *)
Inductive error : Type :=
| Errorf (format : string) (args : list FmtArg)
| Wrapf (format : string) (cause : error)
| ContextErr (deadline : bool)
| Remote (message : string).

(** [errors.Unwrap]. *)
Definition Unwrap (e : error) : option error :=
  match e with
  | Wrapf _ c => Some c
  | _ => None
  end.

(** The chain walked by [errors.Is]: [e], its cause, the cause's cause... *)
Fixpoint chain (e : error) : list error :=
  e :: match e with
       | Wrapf _ c => chain c
       | _ => []
       end.

Definition wraps (e inner : error) : Prop := In inner (chain e).

End errors.

Export errors.

(** ** [models/order.go] *)

Module models.

Definition Time : Type := Z.

(** [string] constants of type [OrderStatus]. *)
Inductive OrderStatus : Type :=
| OrderStatusPending
| OrderStatusValidated
| OrderStatusProcessing
| OrderStatusCompleted
| OrderStatusCancelled
| OrderStatusExpedited
| OrderStatusFailed.

Definition OrderStatus_string (s : OrderStatus) : string :=
  match s with
  | OrderStatusPending => "PENDING"
  | OrderStatusValidated => "VALIDATED"
  | OrderStatusProcessing => "PROCESSING"
  | OrderStatusCompleted => "COMPLETED"
  | OrderStatusCancelled => "CANCELLED"
  | OrderStatusExpedited => "EXPEDITED"
  | OrderStatusFailed => "FAILED"
  end.

#[global] Instance OrderStatus_eq_dec : EqDecision OrderStatus.
Proof. solve_decision. Defined.

Module OrderItem.
Record t : Type := mk {
  ProductID : string;
  Name : string;
  Quantity : Z;
  Price : float64
}.
End OrderItem.

Module Order.
Record t : Type := mk {
  ID : string;
  Items : list OrderItem.t;
  Amount : float64;
  Status : OrderStatus;
  CreatedAt : Time;
  UpdatedAt : Time
}.
End Order.

Module WorkflowState.
Record t : Type := mk {
  OrderID : string;
  Status : OrderStatus;
  ValidationDone : bool;
  ProcessingDone : bool;
  PaymentDone : bool;
  LastUpdated : Time
}.
End WorkflowState.

End models.

Export models.

(** ** What an activity sees of its [context.Context] *)

Module activity.

(** [Done k] tells whether, at the [k]-th [select] of the activity, the
    context's [Done()] channel wins over the timer; [Err] is then what
    [ctx.Err()] returns.  [Attempt] is [activity.GetInfo(ctx).Attempt]. *)
Record Context : Type := mkContext {
  Done : nat -> bool;
  Err : error;
  Attempt : Z
}.

Definition background (attempt : Z) : Context :=
  mkContext (fun _ => false) (ContextErr false) attempt.

Definition cancelled_ctx (attempt : Z) : Context :=
  mkContext (fun _ => true) (ContextErr false) attempt.

End activity.

(** ** [activities/payment_activities.go] *)

Module PaymentActivities.

(** The constant of the second guard of [AuthorizePayment]. *)
Definition authorization_ceiling : float64 := of_Z 9999.

Definition AuthorizePayment (ctx : activity.Context) (order : Order.t)
  : outcome (string * option error) :=
  if activity.Done ctx 0 then Returned (""%string, Some (activity.Err ctx))
  else if le (Order.Amount order) (of_Z 0) then
    Returned (""%string,
              Some (Errorf "invalid payment amount: %.2f" [ArgFloat (Order.Amount order)]))
  else if gt (Order.Amount order) (of_Z 9999) then
    Returned (""%string, Some (Errorf "payment amount exceeds authorization limit" []))
  else
    match slice_to (Order.ID order) 8 with
    | Panicked r => Panicked r
    | Returned id8 =>
        let authorizationID :=
          ("AUTH-" +:+ id8 +:+ "-" +:+ itoa (activity.Attempt ctx))%string in
        Returned (authorizationID, None)
    end.

Definition CapturePayment (ctx : activity.Context) (order : Order.t)
    (authorizationID : string) : outcome (string * option error) :=
  if activity.Done ctx 0 then Returned (""%string, Some (activity.Err ctx))
  else if String.eqb authorizationID "" then
    Returned (""%string, Some (Errorf "invalid authorization ID" []))
  else
    match slice_to (Order.ID order) 8 with
    | Panicked r => Panicked r
    | Returned id8 =>
        let transactionID :=
          ("TXN-" +:+ id8 +:+ "-" +:+ itoa (activity.Attempt ctx))%string in
        Returned (transactionID, None)
    end.

Definition VoidAuthorization (ctx : activity.Context) (authorizationID : string)
  : outcome (option error) :=
  if activity.Done ctx 0 then Returned (Some (activity.Err ctx))
  else Returned None.

Definition RefundPayment (ctx : activity.Context) (transactionID : string)
    (amount : float64) : outcome (string * option error) :=
  if activity.Done ctx 0 then Returned (""%string, Some (activity.Err ctx))
  else
    let txnIDPart :=
      if (12 <? len transactionID)
      then slice transactionID 4 12
      else Returned transactionID in
    match txnIDPart with
    | Panicked r => Panicked r
    | Returned part =>
        Returned (("REFUND-" +:+ part +:+ "-" +:+ itoa (activity.Attempt ctx))%string, None)
    end.

End PaymentActivities.

(** ** [activities/order_activities.go] *)

Module Activities.

(** The accumulation loop of [ProcessOrder]:
    [calculatedTotal += item.Price * float64(item.Quantity)]. *)
Definition calculatedTotal (items : list OrderItem.t) : float64 :=
  fold_left
    (fun total item =>
       add total (mul (OrderItem.Price item) (of_Z (OrderItem.Quantity item))))
    items zero.

Definition ProcessOrder (ctx : activity.Context) (order : Order.t)
  : outcome (option error) :=
  if activity.Done ctx 0 then Returned (Some (activity.Err ctx))
  else
    let total := calculatedTotal (Order.Items order) in
    if ne total (Order.Amount order) then
      Returned (Some (Errorf "order amount mismatch: expected %.2f, got %.2f"
                             [ArgFloat total; ArgFloat (Order.Amount order)]))
    else if activity.Done ctx 1 then Returned (Some (activity.Err ctx))
    else Returned None.

Definition NotifyCustomer (ctx : activity.Context) (order : Order.t)
    (message : string) : outcome (option error) :=
  if activity.Done ctx 0 then Returned (Some (activity.Err ctx))
  else Returned None.

Definition RollbackOrder (ctx : activity.Context) (order : Order.t)
  : outcome (option error) :=
  if activity.Done ctx 0 then Returned (Some (activity.Err ctx))
  else Returned None.

End Activities.

(** ** The workflow runtime, as seen from workflow code

    A workflow run is deterministic given what the host replays to it: the
    version markers recorded for the instance and, for each blocking [Get]
    of the main coroutine, the signals handed to the other coroutines while
    it is blocked, the result of the awaited task and the time at which the
    main coroutine resumes. *)

Module workflow.

Definition Duration : Type := Z.
Definition Millisecond : Duration := 1000000.
Definition Second : Duration := 1000 * Millisecond.
Definition Minute : Duration := 60 * Second.

Definition DefaultVersion : Z := -1.

Module RetryPolicy.
Record t : Type := mk {
  InitialInterval : Duration;
  BackoffCoefficient : float64;
  MaximumInterval : Duration;
  MaximumAttempts : Z
}.
End RetryPolicy.

(** Fields left out of a Go struct literal take their zero value:
    a zero duration, a nil [RetryPolicy]. *)
Module ActivityOptions.
Record t : Type := mk {
  StartToCloseTimeout : Duration;
  HeartbeatTimeout : Duration;
  RetryPolicy : option RetryPolicy.t
}.
End ActivityOptions.

Module ChildWorkflowOptions.
Record t : Type := mk {
  WorkflowID : string;
  WorkflowExecutionTimeout : Duration
}.
End ChildWorkflowOptions.

Inductive Options : Type :=
| ForActivity (o : ActivityOptions.t)
| ForChild (o : ChildWorkflowOptions.t).

(** [workflow.WithActivityOptions(ctx, options)]: the context that carries
    the given options. *)
Definition WithActivityOptions (ctx : ActivityOptions.t)
    (options : ActivityOptions.t) : ActivityOptions.t := options.

(** The context a workflow function is started with: no activity options
    yet. *)
Definition Background : ActivityOptions.t := ActivityOptions.mk 0 0 None.

(** The remote tasks a workflow of this repository schedules. *)
Module task.
Inductive t : Type :=
| ValidateOrder (order : Order.t)
| ProcessOrder (order : Order.t)
| NotifyCustomer (order : Order.t) (message : string)
| RollbackOrder (order : Order.t)
| AuthorizePayment (order : Order.t)
| CapturePayment (order : Order.t) (authorizationID : string)
| VoidAuthorization (authorizationID : string)
| PaymentWorkflow (order : Order.t).
End task.

Inductive ControlSignal : Type := SignalCancel | SignalExpedite.

Inductive Level : Type := INFO | WARN | ERROR.

Inductive Writer : Type := MainSequence | Listener.

(** What a run does, in order. *)
Inductive Event : Type :=
| Logged (level : Level) (message : string)
| StatusSet (by_whom : Writer) (status : OrderStatus)
| Invoked (options : Options) (t : task.t)
| Consumed (s : ControlSignal)
| Resumed (failure : option error).

Record Delivery : Type := mkDelivery {
  at_time : Time;
  signal : ControlSignal
}.

Record Resume : Type := mkResume {
  deliveries : list Delivery;
  result : string;
  failure : option error;
  now : Time
}.

Definition History : Type := nat -> Resume.

Section Runtime.

Context {L : Type}.

Record Machine : Type := mkMachine {
  locals : L;
  markers : gmap string Z;
  waits : nat;
  clock : Time
}.

Definition M (A : Type) : Type := Machine -> A * Machine * list Event.

Definition ret {A} (a : A) : M A := fun m => (a, m, []).

Definition bind {A B} (c : M A) (k : A -> M B) : M B :=
  fun m =>
    let '(a, m1, t1) := c m in
    let '(b, m2, t2) := k a m1 in
    (b, m2, t1 ++ t2).

Definition emit (e : Event) : M unit := fun m => (tt, m, [e]).

Definition read {A} (f : L -> A) : M A := fun m => (f (locals m), m, []).

Definition update (f : L -> L) : M unit :=
  fun m => (tt, mkMachine (f (locals m)) (markers m) (waits m) (clock m), []).

(** [workflow.Now(ctx)]. *)
Definition Now : M Time := fun m => (clock m, m, []).

(** Modelled from the spec: [workflow.GetVersion] belongs to the host
    SDK, which is not part of the sources.  The first call for a
    checkpoint records the requested target for the instance; every
    later call returns the recorded value, whatever target the code
    requests. *)
Definition GetVersion (changeID : string) (minSupported maxSupported : Z)
  : M Z :=
  fun m =>
    match markers m !! changeID with
    | Some v => (v, m, [])
    | None =>
        (maxSupported,
         mkMachine (locals m) (<[changeID := maxSupported]> (markers m))
                   (waits m) (clock m),
         [])
    end.

Variable h : History.

(** The other coroutines of the workflow: what they do with one
    delivered signal. *)
Variable others : Delivery -> L -> L * list Event.

Fixpoint dispatch (ds : list Delivery) (l : L) : L * list Event :=
  match ds with
  | [] => (l, [])
  | d :: ds' =>
      let '(l1, t1) := others d l in
      let '(l2, t2) := dispatch ds' l1 in
      (l2, t1 ++ t2)
  end.

(** [workflow.ExecuteActivity(ctx, f, args...).Get(ctx, &out)] and
    [workflow.ExecuteChildWorkflow(...).Get(ctx, &out)]: schedule the
    task, let the other coroutines run until the task is over, resume. *)
Definition await (options : Options) (t : task.t)
  : M (string * option error) :=
  fun m =>
    let r := h (waits m) in
    let '(l', t') := dispatch (deliveries r) (locals m) in
    ((result r, failure r),
     mkMachine l' (markers m) (S (waits m)) (now r),
     Invoked options t :: t' ++ [Resumed (failure r)]).

Definition ExecuteActivity (ctx : ActivityOptions.t) (t : task.t)
  : M (string * option error) := await (ForActivity ctx) t.

Definition ExecuteChildWorkflow (ctx : ChildWorkflowOptions.t) (t : task.t)
  : M (string * option error) := await (ForChild ctx) t.

End Runtime.

Arguments Machine : clear implicits.
Arguments M : clear implicits.

End workflow.

Export workflow.

Declare Scope wf_scope.
Delimit Scope wf_scope with wf.
Notation "x <- c1 ;; c2" := (bind c1 (fun x => c2))
  (at level 100, c1 at next level, c2 at level 200, right associativity) : wf_scope.
Notation "c1 ;; c2" := (bind c1 (fun _ => c2))
  (at level 100, c2 at level 200, right associativity) : wf_scope.

(** ** [workflows/payment_workflow.go] and [workflows/order_workflow.go] *)

Module workflows.

Local Open Scope wf_scope.
Local Open Scope string_scope.

Definition log {L} (level : Level) (message : string) : M L unit :=
  emit (Logged level message).

(** *** PaymentWorkflow *)

Section PaymentWorkflow.

Variable h : History.

(** The payment workflow starts no other coroutine: a signal delivered
    to it is never received. *)
Definition no_coroutine (d : Delivery) (l : unit) : unit * list Event :=
  (l, []).

Definition paymentActivityOptions : ActivityOptions.t :=
  ActivityOptions.mk (20 * Second) (5 * Second)
    (Some (RetryPolicy.mk (1 * Second) (of_Z 2) (10 * Second) 3)).

Definition PaymentWorkflow (order : Order.t)
  : M unit (string * option error) :=
  log INFO "PaymentWorkflow started" ;;
  let ctx := WithActivityOptions Background paymentActivityOptions in
  (* Step 1: Authorize Payment *)
  log INFO "Authorizing payment" ;;
  r <- ExecuteActivity h no_coroutine ctx (task.AuthorizePayment order) ;;
  let authorizationID := fst r in
  match snd r with
  | Some err =>
      log ERROR "Payment authorization failed" ;;
      ret ("", Some (Wrapf "payment authorization failed: %w" err))
  | None =>
      log INFO "Payment authorized" ;;
      (* Step 2: Capture Payment *)
      log INFO "Capturing payment" ;;
      r <- ExecuteActivity h no_coroutine ctx
             (task.CapturePayment order authorizationID) ;;
      let transactionID := fst r in
      match snd r with
      | Some err =>
          log ERROR "Payment capture failed" ;;
          (* Attempt to void the authorization *)
          let voidCtx :=
            WithActivityOptions ctx
              (ActivityOptions.mk (10 * Second) 0 None) in
          _ <- ExecuteActivity h no_coroutine voidCtx
                 (task.VoidAuthorization authorizationID) ;;
          ret ("", Some (Wrapf "payment capture failed: %w" err))
      | None =>
          log INFO "Payment captured successfully" ;;
          ret ("Payment processed successfully. Transaction ID: "
                 +:+ transactionID, None)
      end
  end.

End PaymentWorkflow.

(** *** OrderWorkflow *)

(** The variables the closures of [OrderWorkflow] share: the queryable
    [state], the two signal flags, and whether the signal goroutine is
    still in its loop. *)
Record Locals : Type := mkLocals {
  state : WorkflowState.t;
  cancelled : bool;
  expedited : bool;
  listening : bool
}.

Definition with_state (f : WorkflowState.t -> WorkflowState.t) (l : Locals)
  : Locals :=
  mkLocals (f (state l)) (cancelled l) (expedited l) (listening l).

Definition set_Status (s : OrderStatus) (w : WorkflowState.t)
  : WorkflowState.t :=
  WorkflowState.mk (WorkflowState.OrderID w) s
    (WorkflowState.ValidationDone w) (WorkflowState.ProcessingDone w)
    (WorkflowState.PaymentDone w) (WorkflowState.LastUpdated w).

Definition set_LastUpdated (t : Time) (w : WorkflowState.t)
  : WorkflowState.t :=
  WorkflowState.mk (WorkflowState.OrderID w) (WorkflowState.Status w)
    (WorkflowState.ValidationDone w) (WorkflowState.ProcessingDone w)
    (WorkflowState.PaymentDone w) t.

Definition set_ValidationDone (b : bool) (w : WorkflowState.t)
  : WorkflowState.t :=
  WorkflowState.mk (WorkflowState.OrderID w) (WorkflowState.Status w)
    b (WorkflowState.ProcessingDone w)
    (WorkflowState.PaymentDone w) (WorkflowState.LastUpdated w).

Definition set_ProcessingDone (b : bool) (w : WorkflowState.t)
  : WorkflowState.t :=
  WorkflowState.mk (WorkflowState.OrderID w) (WorkflowState.Status w)
    (WorkflowState.ValidationDone w) b
    (WorkflowState.PaymentDone w) (WorkflowState.LastUpdated w).

Definition set_PaymentDone (b : bool) (w : WorkflowState.t)
  : WorkflowState.t :=
  WorkflowState.mk (WorkflowState.OrderID w) (WorkflowState.Status w)
    (WorkflowState.ValidationDone w) (WorkflowState.ProcessingDone w)
    b (WorkflowState.LastUpdated w).

(** The goroutine started by [workflow.Go]: one turn of its loop, for one
    received signal.  It leaves the loop once [cancelled] is set. *)
Definition signalHandler (d : Delivery) (l : Locals) : Locals * list Event :=
  if listening l then
    match signal d with
    | SignalCancel =>
        (mkLocals
           (set_LastUpdated (at_time d)
              (set_Status OrderStatusCancelled (state l)))
           true (expedited l) false,
         [Consumed SignalCancel;
          StatusSet Listener OrderStatusCancelled;
          Logged INFO "Order cancelled via signal"])
    | SignalExpedite =>
        (mkLocals
           (set_LastUpdated (at_time d)
              (set_Status OrderStatusExpedited (state l)))
           (cancelled l) true (negb (cancelled l)),
         [Consumed SignalExpedite;
          StatusSet Listener OrderStatusExpedited;
          Logged INFO "Order expedited via signal"])
    end
  else (l, []).

Section OrderWorkflow.

Variable h : History.

Definition setStatus (s : OrderStatus) : M Locals unit :=
  update (with_state (set_Status s)) ;;
  emit (StatusSet MainSequence s).

(** [state.LastUpdated = workflow.Now(ctx)]. *)
Definition touch : M Locals unit :=
  t <- Now ;;
  update (with_state (set_LastUpdated t)).

Definition activityOptions : ActivityOptions.t :=
  ActivityOptions.mk (30 * Second) (5 * Second)
    (Some (RetryPolicy.mk (1 * Second) (of_Z 2) (10 * Second) 3)).

Definition expeditedValidateOptions : ActivityOptions.t :=
  ActivityOptions.mk (15 * Second) (3 * Second)
    (Some (RetryPolicy.mk (500 * Millisecond) (of_Z 2) (5 * Second) 2)).

Definition expeditedProcessOptions : ActivityOptions.t :=
  ActivityOptions.mk (15 * Second) (3 * Second) None.

Definition rollbackOptions : ActivityOptions.t :=
  ActivityOptions.mk (10 * Second) 0 None.

Definition childWorkflowOptions (order : Order.t) : ChildWorkflowOptions.t :=
  ChildWorkflowOptions.mk ("payment-" +:+ Order.ID order) (2 * Minute).

(** The two [if cancelled { ... }] blocks that roll back and return. *)
Definition cancelledBranch (ctx : ActivityOptions.t) (order : Order.t)
    (message : string) : M Locals (option error) :=
  log INFO message ;;
  let rollbackCtx := WithActivityOptions ctx rollbackOptions in
  _ <- ExecuteActivity h signalHandler rollbackCtx (task.RollbackOrder order) ;;
  ret (Some (Errorf "order cancelled by user" [])).

(** From the check that follows [state.Status = Completed] to the end. *)
Definition stepNotify (ctx : ActivityOptions.t) (order : Order.t)
  : M Locals (option error) :=
  c <- read cancelled ;;
  (if c
   then log INFO "Order cancellation received but order already completed"
   else ret tt) ;;
  (* Step 4: Notify Customer *)
  e <- read expedited ;;
  let notificationMessage :=
    if e then "Your expedited order has been processed successfully"
    else "Your order has been processed successfully" in
  r <- ExecuteActivity h signalHandler ctx
         (task.NotifyCustomer order notificationMessage) ;;
  (match snd r with
   | Some _ => log WARN "Failed to notify customer"
   | None => ret tt
   end) ;;
  log INFO "OrderWorkflow completed successfully" ;;
  ret None.

(** From the check that follows the payment block to the end. *)
Definition stepProcess (ctx : ActivityOptions.t) (order : Order.t)
  : M Locals (option error) :=
  c <- read cancelled ;;
  if c then cancelledBranch ctx order "Order processing cancelled after payment"
  else
    (* Step 3: Process Order *)
    log INFO "Starting order processing" ;;
    setStatus OrderStatusProcessing ;;
    touch ;;
    e <- read expedited ;;
    let processCtx :=
      if e then WithActivityOptions ctx expeditedProcessOptions else ctx in
    r <- ExecuteActivity h signalHandler processCtx (task.ProcessOrder order) ;;
    match snd r with
    | Some err =>
        log ERROR "Order processing failed" ;;
        setStatus OrderStatusFailed ;;
        touch ;;
        (* Rollback *)
        _ <- ExecuteActivity h signalHandler ctx (task.RollbackOrder order) ;;
        _ <- ExecuteActivity h signalHandler ctx
               (task.NotifyCustomer order "Order processing failed") ;;
        ret (Some (Wrapf "processing failed: %w" err))
    | None =>
        update (with_state (set_ProcessingDone true)) ;;
        setStatus OrderStatusCompleted ;;
        touch ;;
        stepNotify ctx order
    end.

(** The [if v >= 1 { ... }] block and what follows it. *)
Definition stepPayment (ctx : ActivityOptions.t) (v : Z) (order : Order.t)
  : M Locals (option error) :=
  if (v >=? 1) then
    (* Step 2: Process Payment (Child Workflow) *)
    log INFO "Starting payment processing" ;;
    let childCtx := childWorkflowOptions order in
    r <- ExecuteChildWorkflow h signalHandler childCtx
           (task.PaymentWorkflow order) ;;
    match snd r with
    | Some err =>
        log ERROR "Payment processing failed" ;;
        setStatus OrderStatusFailed ;;
        touch ;;
        (* Rollback *)
        _ <- ExecuteActivity h signalHandler ctx (task.RollbackOrder order) ;;
        _ <- ExecuteActivity h signalHandler ctx
               (task.NotifyCustomer order "Payment processing failed") ;;
        ret (Some (Wrapf "payment failed: %w" err))
    | None =>
        update (with_state (set_PaymentDone true)) ;;
        touch ;;
        log INFO "Payment processed successfully" ;;
        stepProcess ctx order
    end
  else stepProcess ctx order.

(** From [// Step 1: Validate Order] on. *)
Definition stepValidate (ctx : ActivityOptions.t) (v : Z) (order : Order.t)
  : M Locals (option error) :=
  log INFO "Starting order validation" ;;
  setStatus OrderStatusPending ;;
  touch ;;
  e <- read expedited ;;
  let validateCtx :=
    if e then WithActivityOptions ctx expeditedValidateOptions else ctx in
  r <- ExecuteActivity h signalHandler validateCtx (task.ValidateOrder order) ;;
  match snd r with
  | Some err =>
      log ERROR "Order validation failed" ;;
      setStatus OrderStatusFailed ;;
      touch ;;
      (* Send notification *)
      _ <- ExecuteActivity h signalHandler ctx
             (task.NotifyCustomer order "Order validation failed") ;;
      ret (Some (Wrapf "validation failed: %w" err))
  | None =>
      update (with_state (set_ValidationDone true)) ;;
      setStatus OrderStatusValidated ;;
      touch ;;
      log INFO "Order validated successfully" ;;
      (* Check if cancelled *)
      c <- read cancelled ;;
      if c
      then cancelledBranch ctx order "Order processing cancelled after validation"
      else stepPayment ctx v order
  end.

(** [workflow.SetQueryHandler] cannot fail here: the handler it is given
    has the signature of a query handler. *)
Definition OrderWorkflow (order : Order.t) : M Locals (option error) :=
  log INFO "OrderWorkflow started" ;;
  (* Initialize workflow state *)
  t0 <- Now ;;
  update (fun _ =>
            mkLocals
              (WorkflowState.mk (Order.ID order) OrderStatusPending
                                false false false t0)
              false false false) ;;
  emit (StatusSet MainSequence OrderStatusPending) ;;
  (* Version handling for backward compatibility *)
  v <- GetVersion "add-payment-processing" DefaultVersion 1 ;;
  let ctx := WithActivityOptions Background activityOptions in
  (* Start async signal handler goroutine *)
  update (fun l => mkLocals (state l) (cancelled l) (expedited l) true) ;;
  stepValidate ctx v order.

End OrderWorkflow.

(** *** Running a workflow against what the host replays *)

Definition blank : Locals :=
  mkLocals (WorkflowState.mk "" OrderStatusPending false false false 0)
           false false false.

Record Run : Type := mkRun {
  returned : option error;
  final : Locals;
  recorded : gmap string Z;
  trace : list Event
}.

(** One execution of [OrderWorkflow] for an instance whose recorded
    version markers are [mk], started at time [t0]. *)
Definition run (h : History) (mk : gmap string Z) (t0 : Time)
    (order : Order.t) : Run :=
  let '(r, m, t) := OrderWorkflow h order (mkMachine blank mk 0%nat t0) in
  mkRun r (locals m) (markers m) t.

(** The answer of the [state] query handler once the run is over. *)
Definition final_status (r : Run) : OrderStatus :=
  WorkflowState.Status (state (final r)).

Definition run_payment (h : History) (order : Order.t)
  : (string * option error) * list Event :=
  let '(r, _, t) := PaymentWorkflow h order (mkMachine tt ∅ 0%nat 0) in
  (r, t).

End workflows.

(** ** Observations on a run *)

Module observe.

Import workflows.

(** The steps of the run sequence. *)
Inductive Step : Type := Validate | Payment | Process | Notify.

Definition success_message (message : string) : bool :=
  String.eqb message "Your order has been processed successfully"%string
  || String.eqb message
       "Your expedited order has been processed successfully"%string.

(** The step whose remote task [t] is; the rollback and the failure
    notifications belong to no step. *)
Definition step_of (t : task.t) : option Step :=
  match t with
  | task.ValidateOrder _ => Some Validate
  | task.PaymentWorkflow _ => Some Payment
  | task.ProcessOrder _ => Some Process
  | task.NotifyCustomer _ message =>
      if success_message message then Some Notify else None
  | _ => None
  end.

Definition is_step (s : Step) (t : task.t) : bool :=
  match step_of t, s with
  | Some Validate, Validate | Some Payment, Payment
  | Some Process, Process | Some Notify, Notify => true
  | _, _ => false
  end.

Definition is_rollback (t : task.t) : bool :=
  match t with task.RollbackOrder _ => true | _ => false end.

Definition is_payment (t : task.t) : bool :=
  match t with task.PaymentWorkflow _ => true | _ => false end.

(** The remote tasks invoked by a run, in order. *)
Fixpoint invoked (tr : list Event) : list task.t :=
  match tr with
  | [] => []
  | Invoked _ t :: tr' => t :: invoked tr'
  | _ :: tr' => invoked tr'
  end.

Definition count (p : task.t -> bool) (tr : list Event) : nat :=
  length (List.filter p (invoked tr)).

(** The successive values of [state.Status]. *)
Fixpoint statuses (tr : list Event) : list OrderStatus :=
  match tr with
  | [] => []
  | StatusSet _ s :: tr' => s :: statuses tr'
  | _ :: tr' => statuses tr'
  end.

(** Those written by [w]. *)
Fixpoint statuses_of (w : Writer) (tr : list Event) : list OrderStatus :=
  match tr with
  | [] => []
  | StatusSet MainSequence s :: tr' =>
      match w with
      | MainSequence => s :: statuses_of w tr'
      | Listener => statuses_of w tr'
      end
  | StatusSet Listener s :: tr' =>
      match w with
      | MainSequence => statuses_of w tr'
      | Listener => s :: statuses_of w tr'
      end
  | _ :: tr' => statuses_of w tr'
  end.

Definition is_consumed (s : ControlSignal) (e : Event) : bool :=
  match e, s with
  | Consumed SignalCancel, SignalCancel => true
  | Consumed SignalExpedite, SignalExpedite => true
  | _, _ => false
  end.

(** Whether the listener has consumed signal [s] somewhere in [tr]: for
    [SignalCancel] this is the value of the [cancelled] flag after [tr],
    for [SignalExpedite] that of [expedited]. *)
Fixpoint consumed (s : ControlSignal) (tr : list Event) : bool :=
  match tr with
  | [] => false
  | ev :: tr' => is_consumed s ev || consumed s tr'
  end.

Definition succeeded (r : Resume) : bool :=
  match failure r with None => true | Some _ => false end.

Definition carries (s : ControlSignal) (d : Delivery) : bool :=
  match signal d, s with
  | SignalCancel, SignalCancel => true
  | SignalExpedite, SignalExpedite => true
  | _, _ => false
  end.

(** Whether a signal [s] is among those delivered during one wait. *)
Definition delivered (s : ControlSignal) (r : Resume) : bool :=
  existsb (carries s) (deliveries r).

(** *** Claims on traces, as the specification words them *)

(** Step [s] is guarded by the cancellation flag: its remote task is
    never invoked at a point where a Cancel has been consumed. *)
Definition guarded (s : Step) (tr : list Event) : Prop :=
  forall pre options t post,
    tr = pre ++ Invoked options t :: post ->
    step_of t = Some s ->
    consumed SignalCancel pre = false.

(** Each invocation of a run with the values the two flags have when it
    is made ([c], [e]: the flags at the start of the trace). *)
Record Scheduled : Type := mkScheduled {
  cancel_before : bool;
  expedite_before : bool;
  with_options : Options;
  scheduled_task : task.t
}.

Fixpoint schedule (c e : bool) (tr : list Event) : list Scheduled :=
  match tr with
  | [] => []
  | Invoked o t :: tr' => mkScheduled c e o t :: schedule c e tr'
  | ev :: tr' =>
      schedule (c || is_consumed SignalCancel ev)
               (e || is_consumed SignalExpedite ev) tr'
  end.

(** An invocation of step [s] made with the cancellation flag set. *)
Definition unguarded (s : Step) (x : Scheduled) : bool :=
  is_step s (scheduled_task x) && cancel_before x.

(** The options step [s] of the run sequence is scheduled with when the
    expedite flag has value [e] at that point. *)
Definition step_options (order : Order.t) (e : bool) (s : Step) : Options :=
  match s with
  | Validate =>
      ForActivity (if e then expeditedValidateOptions else activityOptions)
  | Payment => ForChild (childWorkflowOptions order)
  | Process =>
      ForActivity (if e then expeditedProcessOptions else activityOptions)
  | Notify => ForActivity activityOptions
  end.

Definition as_planned (order : Order.t) (x : Scheduled) : Prop :=
  forall s,
    step_of (scheduled_task x) = Some s ->
    with_options x = step_options order (expedite_before x) s.

(** The events that follow the first [state.Status = Completed]. *)
Fixpoint after_completed (tr : list Event) : list Event :=
  match tr with
  | [] => []
  | StatusSet MainSequence OrderStatusCompleted :: tr' => tr'
  | _ :: tr' => after_completed tr'
  end.

(** The transitions of the status along the path Pending, Validated,
    Processing, Completed, with Cancelled and Failed absorbing and
    reachable from any other status. *)
Definition path_rank (s : OrderStatus) : option nat :=
  match s with
  | OrderStatusPending => Some 0%nat
  | OrderStatusValidated => Some 1%nat
  | OrderStatusProcessing => Some 2%nat
  | OrderStatusCompleted => Some 3%nat
  | _ => None
  end.

Definition absorbing (s : OrderStatus) : bool :=
  match s with
  | OrderStatusCancelled | OrderStatusFailed => true
  | _ => false
  end.

Definition forward (s s' : OrderStatus) : bool :=
  if absorbing s then bool_decide (s' = s)
  else if absorbing s' then true
  else match path_rank s, path_rank s' with
       | Some n, Some n' => (n <=? n')%nat
       | _, _ => false
       end.

Fixpoint monotone (l : list OrderStatus) : bool :=
  match l with
  | s :: (s' :: _) as l' => forward s s' && monotone l'
  | _ => true
  end.

(** The order in which the main sequence writes statuses. *)
Definition main_rank (s : OrderStatus) : option nat :=
  match s with
  | OrderStatusPending => Some 0%nat
  | OrderStatusValidated => Some 1%nat
  | OrderStatusProcessing => Some 2%nat
  | OrderStatusCompleted => Some 3%nat
  | OrderStatusFailed => Some 4%nat
  | _ => None
  end.

Definition main_forward (s s' : OrderStatus) : bool :=
  match main_rank s, main_rank s' with
  | Some n, Some n' => (n <=? n')%nat && negb (bool_decide (s = OrderStatusFailed))
  | _, _ => false
  end.

Fixpoint main_monotone (l : list OrderStatus) : bool :=
  match l with
  | s :: (s' :: _) as l' => main_forward s s' && main_monotone l'
  | _ => true
  end.

Definition listener_status (s : OrderStatus) : bool :=
  match s with
  | OrderStatusCancelled | OrderStatusExpedited => true
  | _ => false
  end.

End observe.

(** ** Reasoning about runs: definitions *)

Module reasoning.

Import workflows observe.

(** The signal goroutine is in its loop exactly as long as [cancelled] is
    not set. *)
Definition inv (l : Locals) : Prop := listening l = negb (cancelled l).

(** What one wait does to the shared variables, and the events it adds,
    when the signals [ds] are delivered during it. *)
Record listened (ds : list Delivery) (l l' : Locals) (t : list Event)
  : Prop := mkListened {
  l_inv : inv l';
  l_cancelled : cancelled l' = cancelled l || existsb (carries SignalCancel) ds;
  l_consumed : consumed SignalCancel t
               = negb (cancelled l) && existsb (carries SignalCancel) ds;
  l_expedited : expedited l' = expedited l || consumed SignalExpedite t;
  l_invoked : invoked t = [];
  l_main : statuses_of MainSequence t = [];
  l_listener : forallb listener_status (statuses_of Listener t) = true;
  l_status : WorkflowState.Status (state l')
             = List.last (statuses t) (WorkflowState.Status (state l));
  l_final : consumed SignalCancel t = true ->
            WorkflowState.Status (state l') = OrderStatusCancelled;
  l_stopped : cancelled l = true -> l' = l /\ t = []
}.

(** [exec c m Q]: running [c] from [m] ends in a result, a machine and a
    trace that satisfy [Q]. *)
Definition exec {L A : Type} (c : M L A) (m : Machine L)
    (Q : A -> Machine L -> list Event -> Prop) : Prop :=
  Q (c m).1.1 (c m).1.2 (c m).2.

(** The version a checkpoint yields and the markers it leaves. *)
Definition versioned (mk : gmap string Z) (id : string) (hi v : Z)
    (mk' : gmap string Z) : Prop :=
  (mk !! id = Some v /\ mk' = mk)
  \/ (mk !! id = None /\ v = hi /\ mk' = <[id := hi]> mk).

End reasoning.

(** ** Inputs used to exercise the definitions *)

Module samples.

Import workflows.
Local Open Scope string_scope.

Definition item (product name : string) (quantity price : Z) : OrderItem.t :=
  OrderItem.mk product name quantity (of_Z price).

(** [ID: "TEST-PAY-001"], two items of 500.0, amount 1000.0. *)
Definition order1 : Order.t :=
  Order.mk "TEST-PAY-001" [item "PROD-001" "Product 1" 2 500]
           (of_Z 1000) OrderStatusPending 0 0.

(** The same order under a two-byte identifier. *)
Definition short_order : Order.t :=
  Order.mk "A1" [item "PROD-001" "Product 1" 2 500]
           (of_Z 1000) OrderStatusPending 0 0.

(** Amount 1000.0 against two items of 600.0. *)
Definition mismatch_order : Order.t :=
  Order.mk "TEST-006" [item "PROD-001" "Product 1" 2 600]
           (of_Z 1000) OrderStatusPending 0 0.

(** Three items of 10^16, 1 and 1, amount 10^16 + 2: every number here
    is a float64, and so is the exact total. *)
Definition rounding_order : Order.t :=
  Order.mk "TEST-ROUND"
           [item "PROD-001" "Product 1" 1 (10 ^ 16);
            item "PROD-002" "Product 2" 1 1;
            item "PROD-003" "Product 3" 1 1]
           (of_Z (10 ^ 16 + 2)) OrderStatusPending 0 0.

Definition quiet (t : Time) : Resume := mkResume [] "" None t.

Definition failing (e : error) (t : Time) : Resume :=
  mkResume [] "" (Some e) t.

Definition signalled (s : ControlSignal) (t : Time) : Resume :=
  mkResume [mkDelivery t s] "" None (t + 1).

(** Every task succeeds, no signal is ever sent. *)
Definition h_quiet : History := fun k => quiet (Z.of_nat k + 1).

(** A signal [s] is received while the [n]-th awaited task is in flight;
    everything succeeds. *)
Definition h_signal (s : ControlSignal) (n : nat) : History :=
  fun k => if (k =? n)%nat then signalled s (Z.of_nat k + 1)
           else quiet (Z.of_nat k + 1).

(** The [n]-th awaited task fails with [e]. *)
Definition h_fail (e : error) (n : nat) : History :=
  fun k => if (k =? n)%nat then failing e (Z.of_nat k + 1)
           else quiet (Z.of_nat k + 1).

(** Authorization yields ["AUTH-1"], capture fails, and so does the void. *)
Definition h_capture_fails : History :=
  fun k => match k with
           | 0%nat => mkResume [] "AUTH-1" None 1
           | 1%nat => failing (Remote "gateway down") 2
           | _ => failing (Remote "void rejected") 3
           end.

Definition fresh : gmap string Z := ∅.

Definition recorded_at (v : Z) : gmap string Z :=
  {[ "add-payment-processing" := v ]}.

End samples.

(** ** The claims of the specification, as they are worded *)

Module stated.

Import workflows observe PaymentActivities Activities.
Local Open Scope string_scope.

(** Authorization: an error outside [0 < amount <= ceiling], and inside
    it a non-empty id that no capture of the same order returns. *)
Definition authorize_contract (ctx : activity.Context) (order : Order.t)
  : Prop :=
  (le (Order.Amount order) (of_Z 0) = true
   \/ gt (Order.Amount order) authorization_ceiling = true ->
   exists e, AuthorizePayment ctx order = Returned ("", Some e))
  /\ (lt (of_Z 0) (Order.Amount order) = true ->
      le (Order.Amount order) authorization_ceiling = true ->
      exists id,
        AuthorizePayment ctx order = Returned (id, None)
        /\ id <> ""
        /\ forall ctx' authorizationID txn,
             CapturePayment ctx' order authorizationID = Returned (txn, None) ->
             id <> txn).

Definition amount_mismatch (e : error) : Prop :=
  exists args,
    e = Errorf "order amount mismatch: expected %.2f, got %.2f" args.

(** Processing: success exactly when the declared amount equals the
    total of the line items. *)
Definition process_contract (ctx : activity.Context) (order : Order.t)
  : Prop :=
  (eq (calculatedTotal (Order.Items order)) (Order.Amount order) = true ->
   ProcessOrder ctx order = Returned None)
  /\ (eq (calculatedTotal (Order.Items order)) (Order.Amount order) = false ->
      exists e, ProcessOrder ctx order = Returned (Some e) /\ amount_mismatch e).

(** The exact total of quantity times price, for whole prices. *)
Fixpoint exact_total (items : list OrderItem.t) : option Z :=
  match items with
  | [] => Some 0
  | i :: items' =>
      match exact_Z (OrderItem.Price i), exact_total items' with
      | Some p, Some t => Some (OrderItem.Quantity i * p + t)
      | _, _ => None
      end
  end.

(** The same contract with the sum read as the exact one: an order whose
    declared amount is the exact total of its items is processed. *)
Definition process_contract_exact (ctx : activity.Context) (order : Order.t)
  : Prop :=
  forall n,
    exact_total (Order.Items order) = Some n ->
    exact_Z (Order.Amount order) = Some n ->
    ProcessOrder ctx order = Returned None.

(** Every step is guarded by the cancellation flag. *)
Definition every_step_guarded (tr : list Event) : Prop :=
  forall s, guarded s tr.

(** The status only moves forward, Cancelled and Failed are absorbing. *)
Definition status_monotone (tr : list Event) : Prop :=
  monotone (statuses tr) = true.

(** The payment workflow is invoked exactly when the marker recorded for
    the instance is at least 1. *)
Definition payment_gate (r : Run) : Prop :=
  forall v,
    recorded r !! "add-payment-processing" = Some v ->
    (existsb is_payment (invoked (trace r)) = true <-> 1 <= v).

(** Shorter timeouts and fewer attempts than the standard profile. *)
Definition expedited_profile (o : Options) : Prop :=
  exists ao rp,
    o = ForActivity ao
    /\ ActivityOptions.StartToCloseTimeout ao
       < ActivityOptions.StartToCloseTimeout activityOptions
    /\ ActivityOptions.HeartbeatTimeout ao
       < ActivityOptions.HeartbeatTimeout activityOptions
    /\ ActivityOptions.RetryPolicy ao = Some rp
    /\ RetryPolicy.MaximumAttempts rp < 3.

(** A step that begins once the expedite flag is set runs under the
    expedited profile. *)
Definition expedite_honoured (tr : list Event) : Prop :=
  forall pre o t post s,
    tr = (pre ++ Invoked o t :: post)%list ->
    step_of t = Some s ->
    consumed SignalExpedite pre = true ->
    expedited_profile o.

End stated.

(** ** [starter/starter.go]: the order a new workflow is started with *)

Module starter.

Local Open Scope string_scope.

(** Go's [/] on [float64]. *)
Definition div (x y : float64) : float64 := SFdiv prec emax x y.

(** The two items of the order literal, before their prices are
    adjusted. *)
Definition sampleItems : list OrderItem.t :=
  [OrderItem.mk "PROD-001" "Sample Product 1" 2 (of_Z 300);
   OrderItem.mk "PROD-002" "Sample Product 2" 1 (of_Z 400)].

(** [totalQuantity += item.Quantity] over the items. *)
Definition totalQuantity (items : list OrderItem.t) : Z :=
  fold_left (fun total i => Z.add total (OrderItem.Quantity i)) items 0%Z.

(** One turn of the loop that distributes the amount over the items in
    proportion to their quantities. *)
Definition adjust (amount : float64) (total : Z) (i : OrderItem.t)
  : OrderItem.t :=
  let itemProportion := div (of_Z (OrderItem.Quantity i)) (of_Z total) in
  let itemAmount := mul amount itemProportion in
  OrderItem.mk (OrderItem.ProductID i) (OrderItem.Name i)
               (OrderItem.Quantity i)
               (div itemAmount (of_Z (OrderItem.Quantity i))).

Definition adjustItems (amount : float64) (items : list OrderItem.t)
  : list OrderItem.t :=
  match items with
  | [] => items
  | _ :: _ =>
      let total := totalQuantity items in
      if Z.ltb 0 total then List.map (adjust amount total) items else items
  end.

(** The order built by [startWorkflow]: [generated] is the identifier
    [uuid.New()] yields, used when [orderID] is empty, and [created] and
    [updated] are the two readings of [time.Now()]. *)
Definition startOrder (generated : string) (orderID : string)
    (amount : float64) (created updated : Time) : Order.t :=
  let orderID := if String.eqb orderID "" then generated else orderID in
  Order.mk orderID (adjustItems amount sampleItems) amount
           OrderStatusPending created updated.

(** [client.StartWorkflowOptions.ID]. *)
Definition workflowID (order : Order.t) : string :=
  "order-workflow-" +:+ Order.ID order.

End starter.

(** ** Further observations on runs *)

Module listener.

Import workflows observe reasoning.

(** The signals the listener consumed, in order. *)
Fixpoint consumed_signals (tr : list Event) : list ControlSignal :=
  match tr with
  | [] => []
  | Consumed s :: tr' => s :: consumed_signals tr'
  | _ :: tr' => consumed_signals tr'
  end.

Definition is_cancel (s : ControlSignal) : bool :=
  match s with SignalCancel => true | SignalExpedite => false end.

(** Nothing follows a Cancel. *)
Fixpoint cancel_terminal (ss : list ControlSignal) : bool :=
  match ss with
  | [] => true
  | SignalCancel :: rest => match rest with [] => true | _ :: _ => false end
  | SignalExpedite :: rest => cancel_terminal rest
  end.

(** What a wait leaves untouched, and the shape of what the listener
    consumes during it. *)
Record framed (l l' : Locals) (t : list Event) : Prop := mkFramed {
  f_order : WorkflowState.OrderID (state l') = WorkflowState.OrderID (state l);
  f_validation : WorkflowState.ValidationDone (state l')
                 = WorkflowState.ValidationDone (state l);
  f_processing : WorkflowState.ProcessingDone (state l')
                 = WorkflowState.ProcessingDone (state l);
  f_payment : WorkflowState.PaymentDone (state l')
              = WorkflowState.PaymentDone (state l);
  f_terminal : cancel_terminal (consumed_signals t) = true;
  f_cancel : existsb is_cancel (consumed_signals t) = consumed SignalCancel t
}.

Definition is_void (t : task.t) : bool :=
  match t with task.VoidAuthorization _ => true | _ => false end.

Definition is_validate (t : task.t) : bool :=
  match t with task.ValidateOrder _ => true | _ => false end.

Definition is_process (t : task.t) : bool :=
  match t with task.ProcessOrder _ => true | _ => false end.

Definition is_error (r : option error) : bool :=
  match r with Some _ => true | None => false end.

Definition is_completed (s : OrderStatus) : bool :=
  match s with OrderStatusCompleted => true | _ => false end.

(** The text of the notification that ends a successful run, by the
    value of the expedite flag when it is sent. *)
Definition notification (e : bool) : string :=
  if e then "Your expedited order has been processed successfully"%string
  else "Your order has been processed successfully"%string.

(** The success notification is worded after the expedite flag. *)
Definition worded (order : Order.t) (x : Scheduled) : Prop :=
  step_of (scheduled_task x) = Some Notify ->
  scheduled_task x
  = task.NotifyCustomer order (notification (expedite_before x)).

(** The remote tasks of a run that returns without error, for an
    instance whose version marker is [v], when the last notification is
    worded [message]. *)
Definition success_tasks (order : Order.t) (v : Z) (message : string)
  : list task.t :=
  task.ValidateOrder order
  :: (if 1 <=? v then [task.PaymentWorkflow order] else [])
  ++ [task.ProcessOrder order; task.NotifyCustomer order message].

Definition process_verdict (r : Resume) : option error :=
  match failure r with
  | Some e => Some (Wrapf "processing failed: %w" e)
  | None => None
  end.

(** The result of a run for an instance whose version marker is [v], read
    off what the host reports for the first three waits. *)
Definition verdict (h : History) (v : Z) : option error :=
  match failure (h 0%nat) with
  | Some e => Some (Wrapf "validation failed: %w" e)
  | None =>
      if delivered SignalCancel (h 0%nat)
      then Some (Errorf "order cancelled by user" [])
      else if 1 <=? v then
        match failure (h 1%nat) with
        | Some e => Some (Wrapf "payment failed: %w" e)
        | None =>
            if delivered SignalCancel (h 1%nat)
            then Some (Errorf "order cancelled by user" [])
            else process_verdict (h 2%nat)
        end
      else process_verdict (h 1%nat)
  end.

(** The version the checkpoint of [OrderWorkflow] yields for an instance
    whose recorded markers are [mk]. *)
Definition version_of (mk : gmap string Z) : Z :=
  match mk !! "add-payment-processing"%string with
  | Some v => v
  | None => 1
  end.

(** The tasks [OrderWorkflow] hands out for [order]: its four activities
    and the payment workflow, each for that order. *)
Definition concerns (order : Order.t) (t : task.t) : Prop :=
  match t with
  | task.ValidateOrder o | task.ProcessOrder o | task.RollbackOrder o
  | task.PaymentWorkflow o | task.NotifyCustomer o _ => o = order
  | _ => False
  end.

End listener.

(** The order of [rounding_order] with its items in the opposite order. *)
Definition rounding_order_reversed : Order.t :=
  Order.mk (Order.ID samples.rounding_order)
           (rev (Order.Items samples.rounding_order))
           (Order.Amount samples.rounding_order) OrderStatusPending 0 0.

(** Authorization yields ["AUTH-TEST-PAY-1"] and capture
    ["TXN-TEST-PAY-1"], as the two activities do for [order1] on their
    first attempt. *)
Definition h_served : History :=
  fun k => match k with
           | 0%nat => mkResume [] "AUTH-TEST-PAY-1" None 1
           | _ => mkResume [] "TXN-TEST-PAY-1" None 2
           end.

(** ** Theorems *)

Section Float64Facts.

Lemma SFcompare_antisym (x y : float64) :
  SFcompare y x = option_map CompOpp (SFcompare x y).
Proof.
  destruct x as [sx|sx| |sx mx ex], y as [sy|sy| |sy my ey]; simpl;
    try reflexivity;
    try (destruct sx; reflexivity); try (destruct sy; reflexivity);
    try (destruct sx, sy; reflexivity).
  destruct sx, sy; simpl; try reflexivity;
    rewrite (Z.compare_antisym ex ey);
    destruct (ex ?= ey)%Z; simpl; try reflexivity;
    rewrite (Pos.compare_cont_antisym mx my Eq); simpl;
    destruct (Pos.compare_cont Eq mx my); reflexivity.
Qed.

Lemma lt_not_ge (x y : float64) : lt x y = true -> le y x = false.
Proof.
  unfold lt, le, SFltb, SFleb. rewrite (SFcompare_antisym x y).
  destruct (SFcompare x y) as [[ | | ]|]; simpl; congruence.
Qed.

Lemma le_not_gt (x y : float64) : le x y = true -> gt x y = false.
Proof.
  unfold gt, le, SFltb, SFleb. rewrite (SFcompare_antisym x y).
  destruct (SFcompare x y) as [[ | | ]|]; simpl; congruence.
Qed.

End Float64Facts.

Section PaymentActivityFacts.

Import PaymentActivities.
Local Open Scope string_scope.

Lemma slice_to_short (s : string) (n : nat) :
  len s < Z.of_nat n -> slice_to s n = Panicked "slice bounds out of range".
Proof.
  intros H. unfold slice_to.
  destruct (Z.leb_spec (Z.of_nat n) (len s)); [lia | reflexivity].
Qed.

Lemma slice_to_long (s : string) (n : nat) :
  Z.of_nat n <= len s -> slice_to s n = Returned (String.substring 0 n s).
Proof.
  intros H. unfold slice_to.
  destruct (Z.leb_spec (Z.of_nat n) (len s)); [reflexivity | lia].
Qed.

(** What [CapturePayment] returns when it returns without an error. *)
Lemma CapturePayment_returns ctx order authorizationID txn :
  CapturePayment ctx order authorizationID = Returned (txn, None) ->
  exists rest, txn = "TXN-" +:+ rest.
Proof.
  unfold CapturePayment.
  destruct (activity.Done ctx 0); [discriminate|].
  destruct (String.eqb authorizationID ""); [discriminate|].
  destruct (slice_to (Order.ID order) 8) as [id8|r]; [|discriminate].
  intros [= <-]. eauto.
Qed.

End PaymentActivityFacts.

Section PaymentActivityClaims.

Import PaymentActivities samples.
Local Open Scope string_scope.

(** C10.  [AuthorizePayment] (amount within [0 < amount <= 9999]) and
    [CapturePayment] (non-empty authorization id) build their result from
    [order.ID[:8]]: past their waits and guards, an identifier shorter than
    8 bytes makes the call panic with an out-of-range slice, neither a value
    nor an error being returned; an identifier of 8 bytes or more yields
    the id built from its first 8 bytes and the attempt number. *)
Theorem C10_short_identifier_panics :
  forall (ctx : activity.Context) (order : Order.t),
    activity.Done ctx 0 = false ->
    (len (Order.ID order) < 8 ->
     (lt (of_Z 0) (Order.Amount order) = true ->
      le (Order.Amount order) (of_Z 9999) = true ->
      AuthorizePayment ctx order = Panicked "slice bounds out of range")
     /\ (forall authorizationID,
           authorizationID <> "" ->
           CapturePayment ctx order authorizationID
           = Panicked "slice bounds out of range"))
    /\ (8 <= len (Order.ID order) ->
        (lt (of_Z 0) (Order.Amount order) = true ->
         le (Order.Amount order) (of_Z 9999) = true ->
         AuthorizePayment ctx order
         = Returned ("AUTH-" +:+ String.substring 0 8 (Order.ID order) +:+ "-"
                       +:+ itoa (activity.Attempt ctx), None))
        /\ (forall authorizationID,
              authorizationID <> "" ->
              CapturePayment ctx order authorizationID
              = Returned ("TXN-" +:+ String.substring 0 8 (Order.ID order) +:+ "-"
                            +:+ itoa (activity.Attempt ctx), None))).
Proof.
  intros ctx order Hlive. unfold AuthorizePayment, CapturePayment.
  rewrite Hlive. split; intros Hlen.
  - rewrite (slice_to_short (Order.ID order) 8) by exact Hlen. split.
    + intros Hpos Hmax.
      rewrite (lt_not_ge _ _ Hpos), (le_not_gt _ _ Hmax). reflexivity.
    + intros a Ha. apply String.eqb_neq in Ha. rewrite Ha. reflexivity.
  - rewrite (slice_to_long (Order.ID order) 8) by exact Hlen. split.
    + intros Hpos Hmax.
      rewrite (lt_not_ge _ _ Hpos), (le_not_gt _ _ Hmax). reflexivity.
    + intros a Ha. apply String.eqb_neq in Ha. rewrite Ha. reflexivity.
Qed.

Lemma C10_witness :
  AuthorizePayment (activity.background 1) short_order
  = Panicked "slice bounds out of range"
  /\ CapturePayment (activity.background 1) short_order "AUTH-1"
     = Panicked "slice bounds out of range"
  /\ AuthorizePayment (activity.background 1) order1
     = Returned ("AUTH-TEST-PAY-1", None).
Proof.
  pose proof (C10_short_identifier_panics (activity.background 1) short_order
                eq_refl) as [Hs _].
  pose proof (C10_short_identifier_panics (activity.background 1) order1
                eq_refl) as [_ Hl].
  destruct (Hs ltac:(vm_compute; reflexivity)) as [Ha Hc].
  destruct (Hl ltac:(vm_compute; discriminate)) as [Ha' _].
  split; [|split].
  - apply Ha; vm_compute; reflexivity.
  - apply Hc. discriminate.
  - apply Ha'; vm_compute; reflexivity.
Defined.

(** C7, as worded, fails: for the order [short_order] (amount 1000.0,
    identifier ["A1"]) no authorization id is returned -- the call panics --
    and under a context that is already done the call returns the context's
    error, whatever the amount. *)
Lemma C7_counterexample :
  ~ stated.authorize_contract (activity.background 1) short_order
  /\ ~ stated.authorize_contract (activity.cancelled_ctx 1) order1.
Proof.
  split; intros [_ H].
  - destruct H as (id & Hid & _); [reflexivity | reflexivity |].
    vm_compute in Hid. discriminate.
  - destruct H as (id & Hid & _); [reflexivity | reflexivity |].
    vm_compute in Hid. discriminate.
Qed.

(** C7, amended.  [AuthorizePayment] returns an error for every order with
    [amount <= 0] or [amount > 9999]; for every order with
    [0 < amount <= 9999] whose identifier has at least 8 bytes, called
    under a context that is not done, it returns a non-empty authorization
    id, and no transaction id returned by [CapturePayment] for that order
    equals it. *)
Theorem C7_authorize_amended :
  forall (ctx : activity.Context) (order : Order.t),
    (le (Order.Amount order) (of_Z 0) = true
     \/ gt (Order.Amount order) authorization_ceiling = true ->
     exists e, AuthorizePayment ctx order = Returned ("", Some e))
    /\ (activity.Done ctx 0 = false ->
        8 <= len (Order.ID order) ->
        lt (of_Z 0) (Order.Amount order) = true ->
        le (Order.Amount order) authorization_ceiling = true ->
        exists id,
          AuthorizePayment ctx order = Returned (id, None)
          /\ id <> ""
          /\ forall ctx' authorizationID txn,
               CapturePayment ctx' order authorizationID = Returned (txn, None) ->
               id <> txn).
Proof.
  intros ctx order. split.
  - intros H. unfold AuthorizePayment.
    destruct (activity.Done ctx 0); [eauto|].
    destruct (le (Order.Amount order) (of_Z 0)) eqn:Hle; [eauto|].
    destruct H as [H|H]; [discriminate|].
    unfold authorization_ceiling in H. rewrite H. eauto.
  - intros Hlive Hlen Hpos Hmax.
    unfold AuthorizePayment, authorization_ceiling in *.
    rewrite Hlive, (lt_not_ge _ _ Hpos), (le_not_gt _ _ Hmax).
    rewrite (slice_to_long (Order.ID order) 8) by exact Hlen.
    eexists. split; [reflexivity|]. split; [discriminate|].
    intros ctx' a txn Hc.
    destruct (CapturePayment_returns _ _ _ _ Hc) as [rest ->]. discriminate.
Qed.

Lemma C7_witness :
  (exists e, AuthorizePayment (activity.background 1)
               (Order.mk "TEST-PAY-004" [] (of_Z 60000) OrderStatusPending 0 0)
             = Returned ("", Some e))
  /\ exists id,
       AuthorizePayment (activity.background 1) order1 = Returned (id, None)
       /\ id <> "".
Proof.
  split.
  - apply (C7_authorize_amended (activity.background 1)
             (Order.mk "TEST-PAY-004" [] (of_Z 60000) OrderStatusPending 0 0)).
    right. vm_compute. reflexivity.
  - destruct (C7_authorize_amended (activity.background 1) order1) as [_ H].
    destruct H as (id & Hid & Hne & _);
      [reflexivity | vm_compute; discriminate | reflexivity | reflexivity |].
    exists id. split; assumption.
Defined.

End PaymentActivityClaims.

Section ListenerFacts.

Import workflows observe reasoning.

Lemma last_cons_indep {A : Type} (l : list A) (a d d' : A) :
  List.last (a :: l) d = List.last (a :: l) d'.
Proof.
  revert a. induction l as [|b l IH]; intros a; [reflexivity|].
  change (List.last (b :: l) d = List.last (b :: l) d'). apply IH.
Qed.

Lemma dispatch_idle (ds : list Delivery) (l : Locals) :
  listening l = false -> dispatch signalHandler ds l = (l, []).
Proof.
  induction ds as [|d ds IH]; intros Hl; simpl; [reflexivity|].
  unfold signalHandler at 1. rewrite Hl, (IH Hl). reflexivity.
Qed.

Lemma inv_cases (l : Locals) :
  inv l ->
  (listening l = true /\ cancelled l = false)
  \/ (listening l = false /\ cancelled l = true).
Proof. unfold inv. destruct (listening l), (cancelled l); simpl; auto. Qed.

Lemma dispatch_listen (ds : list Delivery) :
  forall l l' t,
    dispatch signalHandler ds l = (l', t) -> inv l -> listened ds l l' t.
Proof.
  induction ds as [|d ds IH]; intros l l' t H Hinv.
  - simpl in H. injection H as <- <-.
    split; simpl; rewrite ?orb_false_r, ?andb_false_r; auto; discriminate.
  - destruct (inv_cases l Hinv) as [[Hl Hc]|[Hl Hc]].
    + cbn [dispatch] in H.
      destruct (signalHandler d l) as [l1 t1] eqn:Hs1.
      unfold signalHandler in Hs1. rewrite Hl in Hs1.
      destruct (signal d) eqn:Hs; injection Hs1 as <- <-.
      * rewrite dispatch_idle in H by reflexivity. injection H as <- <-.
        split; simpl; unfold inv, carries; simpl;
          rewrite ?Hs, ?Hc, ?orb_false_r; auto; congruence.
      * match type of H with
        | context [dispatch _ _ ?l1] =>
            destruct (dispatch signalHandler ds l1) as [l2 t2] eqn:D;
            apply IH in D; [|unfold inv; simpl; rewrite Hc; reflexivity]
        end.
        injection H as <- <-. destruct D as [i c k e n a b s f _].
        simpl in *. rewrite Hc in *. simpl in *.
        assert (Hd : carries SignalCancel d = false)
          by (unfold carries; rewrite Hs; reflexivity).
        split; simpl; rewrite ?Hd, ?Hc; simpl; auto; try congruence.
        -- rewrite e. now rewrite orb_true_r.
        -- rewrite s. destruct (statuses t2); [reflexivity|].
           apply last_cons_indep.
    + rewrite dispatch_idle in H by assumption. injection H as <- <-.
      split; simpl; rewrite ?Hc, ?orb_false_r; auto; discriminate.
Qed.

End ListenerFacts.

Section ExecRules.

Import workflows observe reasoning.

Context {L : Type}.

Lemma exec_ret {A} (a : A) (m : Machine L) Q :
  Q a m [] -> exec (ret a) m Q.
Proof. exact (fun H => H). Qed.

Lemma exec_bind {A B} (c : M L A) (k : A -> M L B) (m : Machine L) Q :
  exec c m (fun a m1 t1 => exec (k a) m1 (fun b m2 t2 => Q b m2 (t1 ++ t2))) ->
  exec (bind c k) m Q.
Proof.
  unfold exec, bind. destruct (c m) as [[a m1] t1]. simpl.
  destruct (k a m1) as [[b m2] t2]. simpl. exact (fun H => H).
Qed.

Lemma exec_bind_assoc {A B C} (c : M L A) (k : A -> M L B) (k' : B -> M L C)
    (m : Machine L) Q :
  exec (bind c (fun a => bind (k a) k')) m Q ->
  exec (bind (bind c k) k') m Q.
Proof.
  unfold exec, bind. destruct (c m) as [[a m1] t1]. simpl.
  destruct (k a m1) as [[b m2] t2]. simpl.
  destruct (k' b m2) as [[c' m3] t3]. simpl.
  rewrite <- app_assoc. exact (fun H => H).
Qed.

Lemma exec_bind_ret {A B} (a : A) (k : A -> M L B) (m : Machine L) Q :
  exec (k a) m Q -> exec (bind (ret a) k) m Q.
Proof.
  unfold exec, bind, ret. destruct (k a m) as [[b m2] t2]. exact (fun H => H).
Qed.

Lemma exec_bind_emit {B} (e : Event) (k : unit -> M L B) (m : Machine L) Q :
  exec (k tt) m (fun b m2 t2 => Q b m2 (e :: t2)) -> exec (bind (emit e) k) m Q.
Proof.
  unfold exec, bind, emit. destruct (k tt m) as [[b m2] t2]. exact (fun H => H).
Qed.

Lemma exec_bind_log {B} (lv : Level) (s : string) (k : unit -> M L B)
    (m : Machine L) Q :
  exec (k tt) m (fun b m2 t2 => Q b m2 (Logged lv s :: t2)) ->
  exec (bind (log lv s) k) m Q.
Proof. apply exec_bind_emit. Qed.

Lemma exec_bind_read {A B} (f : L -> A) (k : A -> M L B) (m : Machine L) Q :
  exec (k (f (locals m))) m Q -> exec (bind (read f) k) m Q.
Proof.
  unfold exec, bind, read. destruct (k _ m) as [[b m2] t2]. exact (fun H => H).
Qed.

Lemma exec_bind_update {B} (f : L -> L) (k : unit -> M L B) (m : Machine L) Q :
  exec (k tt) (mkMachine (f (locals m)) (markers m) (waits m) (clock m)) Q ->
  exec (bind (update f) k) m Q.
Proof.
  unfold exec, bind, update. destruct (k tt _) as [[b m2] t2]. exact (fun H => H).
Qed.

Lemma exec_bind_Now {B} (k : Time -> M L B) (m : Machine L) Q :
  exec (k (clock m)) m Q -> exec (bind Now k) m Q.
Proof.
  unfold exec, bind, Now. destruct (k _ m) as [[b m2] t2]. exact (fun H => H).
Qed.

Lemma exec_bind_GetVersion {B} (id : string) (lo hi : Z) (k : Z -> M L B)
    (m : Machine L) Q :
  (forall v mk',
     versioned (markers m) id hi v mk' ->
     exec (k v) (mkMachine (locals m) mk' (waits m) (clock m)) Q) ->
  exec (bind (GetVersion id lo hi) k) m Q.
Proof.
  intros H. unfold exec, bind, GetVersion in *.
  destruct (markers m !! id) as [v|] eqn:E.
  - specialize (H v (markers m) (or_introl (conj E eq_refl))).
    destruct m as [l mk w c]. simpl in *.
    destruct (k v _) as [[b m2] t2]. exact H.
  - specialize (H hi _ (or_intror (conj E (conj eq_refl eq_refl)))).
    simpl in *. destruct (k hi _) as [[b m2] t2]. exact H.
Qed.

End ExecRules.

Section AwaitRules.

Import workflows observe reasoning.

Variable h : History.

Lemma exec_bind_await {B} (o : Options) (t : task.t)
    (k : string * option error -> M Locals B) (m : Machine Locals) Q :
  inv (locals m) ->
  (forall l' t',
     listened (deliveries (h (waits m))) (locals m) l' t' ->
     exec (k (result (h (waits m)), failure (h (waits m))))
          (mkMachine l' (markers m) (S (waits m)) (now (h (waits m))))
          (fun b m2 t2 =>
             Q b m2 (Invoked o t :: t' ++ Resumed (failure (h (waits m))) :: t2))) ->
  exec (bind (await h signalHandler o t) k) m Q.
Proof.
  intros Hinv H. unfold exec, bind, await in *.
  destruct (dispatch signalHandler _ _) as [l' t'] eqn:D.
  specialize (H l' t' (dispatch_listen _ _ _ _ D Hinv)).
  destruct (k _ _) as [[b m2] t2]. simpl in *.
  rewrite <- app_assoc. exact H.
Qed.

Lemma exec_bind_await_plain {B} (o : Options) (t : task.t)
    (k : string * option error -> M unit B) (m : Machine unit) Q :
  exec (k (result (h (waits m)), failure (h (waits m))))
       (mkMachine tt (markers m) (S (waits m)) (now (h (waits m))))
       (fun b m2 t2 => Q b m2 (Invoked o t :: Resumed (failure (h (waits m))) :: t2)) ->
  exec (bind (await h no_coroutine o t) k) m Q.
Proof.
  intros H. unfold exec, bind, await in *.
  assert (D : forall ds l, dispatch no_coroutine ds l = (tt, [])).
  { induction ds as [|d ds IH]; intros []; simpl; [reflexivity|].
    rewrite IH. reflexivity. }
  rewrite D. destruct (k _ _) as [[b m2] t2]. exact H.
Qed.

Lemma run_exec (mk : gmap string Z) (t0 : Time) (order : Order.t)
    (P : Run -> Prop) :
  exec (OrderWorkflow h order) (mkMachine blank mk 0%nat t0)
       (fun r m t => P (mkRun r (locals m) (markers m) t)) ->
  P (run h mk t0 order).
Proof.
  unfold exec, run. destruct (OrderWorkflow _ _ _) as [[r m] t].
  exact (fun H => H).
Qed.

End AwaitRules.

Section TraceFacts.

Import workflows observe reasoning.

Lemma invoked_quiet (t rest : list Event) :
  invoked t = [] -> invoked (t ++ rest) = invoked rest.
Proof.
  induction t as [|ev t IH]; intros H; [reflexivity|].
  destruct ev; cbn in *; try discriminate; auto.
Qed.

Lemma main_quiet (t rest : list Event) :
  statuses_of MainSequence t = [] ->
  statuses_of MainSequence (t ++ rest) = statuses_of MainSequence rest.
Proof.
  induction t as [|ev t IH]; intros H; [reflexivity|].
  destruct ev as [| [] s | | |]; cbn in *; try discriminate; auto.
Qed.

Lemma listener_quiet (t rest : list Event) :
  forallb listener_status (statuses_of Listener t) = true ->
  forallb listener_status (statuses_of Listener (t ++ rest))
  = forallb listener_status (statuses_of Listener rest).
Proof.
  induction t as [|ev t IH]; intros H; [reflexivity|].
  destruct ev as [| [] s | | |]; cbn in *; auto.
  apply andb_prop in H as [-> H]. auto.
Qed.

Lemma schedule_quiet (t rest : list Event) :
  forall c e,
    invoked t = [] ->
    schedule c e (t ++ rest)
    = schedule (c || consumed SignalCancel t)
               (e || consumed SignalExpedite t) rest.
Proof.
  induction t as [|ev t IH]; intros c e Hn; simpl.
  - now rewrite !orb_false_r.
  - destruct ev; try discriminate; simpl in *;
      rewrite IH by assumption; now rewrite <- !orb_assoc.
Qed.

Lemma after_completed_quiet (t rest : list Event) :
  statuses_of MainSequence t = [] ->
  after_completed (t ++ rest) = after_completed rest.
Proof.
  induction t as [|ev t IH]; intros Hn; simpl; [reflexivity|].
  destruct ev as [| [] s | | |]; simpl in *; try discriminate; auto.
  all: destruct s; auto.
Qed.

Lemma consumed_app (s : ControlSignal) (t rest : list Event) :
  consumed s (t ++ rest) = consumed s t || consumed s rest.
Proof.
  induction t as [|ev t IH]; [reflexivity|].
  cbn. now rewrite IH, orb_assoc.
Qed.

Lemma schedule_In (pre post : list Event) (o : Options) (t : task.t) :
  forall c e c' e',
    c' = c || consumed SignalCancel pre ->
    e' = e || consumed SignalExpedite pre ->
    In (mkScheduled c' e' o t) (schedule c e (pre ++ Invoked o t :: post)).
Proof.
  induction pre as [|ev pre IH]; intros c e c' e' Hc He.
  - cbn in *. rewrite orb_false_r in Hc, He. subst. now left.
  - cbn [consumed] in Hc, He. rewrite orb_assoc in Hc, He.
    destruct ev; cbn [app schedule];
      try (apply IH; assumption).
    right. cbn [is_consumed] in Hc, He. rewrite orb_false_r in Hc, He.
    apply IH; assumption.
Qed.

(** Each invocation of a trace appears in its schedule, with the flags as
    the events before it leave them. *)
Lemma schedule_complete (pre post : list Event) (o : Options) (t : task.t) :
  In (mkScheduled (consumed SignalCancel pre) (consumed SignalExpedite pre) o t)
     (schedule false false (pre ++ Invoked o t :: post)).
Proof. apply schedule_In; reflexivity. Qed.

End TraceFacts.

Import workflows observe reasoning.

Ltac wf_simpl :=
  unfold WithActivityOptions in *;
  cbn [locals markers waits clock with_state state cancelled expedited
       listening fst snd set_Status set_LastUpdated set_ValidationDone
       set_ProcessingDone set_PaymentDone WorkflowState.Status] in *.

Ltac wf_simpl_goal :=
  unfold WithActivityOptions;
  cbn [locals markers waits clock with_state state cancelled expedited
       listening fst snd set_Status set_LastUpdated set_ValidationDone
       set_ProcessingDone set_PaymentDone WorkflowState.Status].

Ltac wf_step :=
  lazymatch goal with
  | |- exec (bind (bind _ _) _) _ _ => apply exec_bind_assoc
  | |- exec (bind (ret _) _) _ _ => apply exec_bind_ret
  | |- exec (bind (emit _) _) _ _ => apply exec_bind_emit
  | |- exec (bind (log _ _) _) _ _ => apply exec_bind_log
  | |- exec (bind (read _) _) _ _ => apply exec_bind_read
  | |- exec (bind (update _) _) _ _ => apply exec_bind_update
  | |- exec (bind Now _) _ _ => apply exec_bind_Now
  | |- exec (bind (setStatus _) _) _ _ => unfold setStatus at 1
  | |- exec (bind touch _) _ _ => unfold touch at 1
  | |- exec (bind (ExecuteActivity _ _ _ _) _) _ _ =>
      unfold ExecuteActivity at 1
  | |- exec (bind (ExecuteChildWorkflow _ _ _ _) _) _ _ =>
      unfold ExecuteChildWorkflow at 1
  | |- exec (ret _) _ _ => apply exec_ret
  | |- exec (bind (GetVersion _ _ _) _) _ _ =>
      apply exec_bind_GetVersion; intros ? ? ?
  | |- exec (bind (await _ signalHandler _ _) _) _ _ =>
      apply exec_bind_await;
      [unfold inv; wf_simpl_goal;
       first [reflexivity | eapply l_inv; eassumption | assumption]
      |intros ? ? ?]
  | |- exec (bind (await _ no_coroutine _ _) _) _ _ =>
      apply exec_bind_await_plain
  | |- exec (stepValidate _ _ _ _) _ _ => unfold stepValidate
  | |- exec (stepPayment _ _ _ _) _ _ => unfold stepPayment
  | |- exec (stepProcess _ _ _) _ _ => unfold stepProcess
  | |- exec (stepNotify _ _ _) _ _ => unfold stepNotify
  | |- exec (cancelledBranch _ _ _ _) _ _ => unfold cancelledBranch
  | |- exec (OrderWorkflow _ _) _ _ => unfold OrderWorkflow
  | |- exec (PaymentWorkflow _ _) _ _ => unfold PaymentWorkflow
  end; wf_simpl_goal.

Ltac wf_branch :=
  lazymatch goal with
  | |- exec (match failure ?r with _ => _ end) _ _ =>
      let E := fresh "Efail" in destruct (failure r) eqn:E
  | |- exec (if cancelled ?l then _ else _) _ _ =>
      let E := fresh "Ecancelled" in destruct (cancelled l) eqn:E
  | |- exec (bind (if cancelled ?l then _ else _) _) _ _ =>
      let E := fresh "Ecancelled" in destruct (cancelled l) eqn:E
  | |- exec (bind (match failure ?r with _ => _ end) _) _ _ =>
      let E := fresh "Efail" in destruct (failure r) eqn:E
  | |- exec (if (?v >=? 1) then _ else _) _ _ =>
      let E := fresh "Eversion" in destruct (v >=? 1) eqn:E
  | |- context [if expedited ?l then _ else _] =>
      let E := fresh "Eexpedited" in destruct (expedited l) eqn:E
  end; wf_simpl_goal.

(** Run [OrderWorkflow] symbolically, one goal per path through it. *)
Ltac wf_run := apply run_exec; repeat first [wf_step | wf_branch].

(** Every field of every [listened] fact, as a hypothesis of its own. *)
Ltac wf_facts :=
  repeat match goal with
         | H : listened _ _ _ _ |- _ =>
             let i := fresh "Hinv" in
             let c := fresh "Hcancelled" in
             let k := fresh "Hconsumed" in
             let e := fresh "Hexpedited" in
             let n := fresh "Hquiet" in
             let a := fresh "Hmain" in
             let b := fresh "Hlistener" in
             let s := fresh "Hstatus" in
             let f := fresh "Hfinal" in
             let z := fresh "Hstopped" in
             destruct H as [i c k e n a b s f z]
         end; wf_simpl.

(** Push an observation through a trace: event by event, and across the
    events of a wait by the [listened] facts at hand. *)
Ltac wf_observe :=
  repeat first
    [ progress cbn [invoked statuses_of schedule after_completed consumed
                    is_consumed app orb andb negb forallb listener_status]
    | match goal with
      | H : invoked ?t = [] |- context [invoked (?t ++ _)] =>
          rewrite (invoked_quiet t _ H)
      | H : statuses_of MainSequence ?t = []
        |- context [statuses_of MainSequence (?t ++ _)] =>
          rewrite (main_quiet t _ H)
      | H : forallb listener_status (statuses_of Listener ?t) = true
        |- context [statuses_of Listener (?t ++ _)] =>
          rewrite (listener_quiet t _ H)
      | H : invoked ?t = [] |- context [schedule _ _ (?t ++ _)] =>
          rewrite (schedule_quiet t _ _ _ H)
      | H : statuses_of MainSequence ?t = []
        |- context [after_completed (?t ++ _)] =>
          rewrite (after_completed_quiet t _ H)
      | |- context [consumed _ (_ ++ _)] => rewrite consumed_app
      end ].

(** Replace each flag by what is known of it, everywhere: [cancelled l]
    and [expedited l] by the right-hand side of their equation,
    [consumed s t] by its value. *)
Ltac wf_flag :=
  match goal with
  | H : cancelled ?l = _ |- _ =>
      is_var l; let c := fresh "flag" in
      set (c := cancelled l) in *; clearbody c; subst c
  | H : expedited ?l = _ |- _ =>
      is_var l; let c := fresh "flag" in
      set (c := expedited l) in *; clearbody c; subst c
  | H : consumed ?s ?t = ?b |- _ =>
      lazymatch b with true => idtac | false => idtac end;
      let c := fresh "flag" in
      set (c := consumed s t) in *; clearbody c; subst c
  | H : ?b = consumed ?s ?t |- _ =>
      lazymatch b with true => idtac | false => idtac end;
      symmetry in H
  end.

(** Decide which signals each wait delivered and propagate the flags. *)
Ltac wf_flags :=
  repeat match goal with
         | H : context [existsb (carries ?s) ?ds] |- _ =>
             destruct (existsb (carries s) ds)
         end;
  repeat first [progress cbn [orb andb negb] in * | wf_flag];
  try discriminate.

Section CancellationClaims.

Import workflows observe reasoning samples.

(** C1 (the code departs from the claim).  In every execution in which a
    Cancel is consumed while Validate is in flight and Validate succeeds,
    the run ends with the cancellation failure and [RollbackOrder] is
    invoked exactly once -- but the status the [state] query finally
    answers is Validated, not Cancelled: the write that follows a
    successful validation overwrites the one made by the signal handler. *)
Theorem C1_cancel_during_validate :
  forall (h : History) (mk : gmap string Z) (t0 : Time) (order : Order.t),
    failure (h 0%nat) = None ->
    delivered SignalCancel (h 0%nat) = true ->
    returned (run h mk t0 order) = Some (Errorf "order cancelled by user" [])
    /\ count is_rollback (trace (run h mk t0 order)) = 1%nat
    /\ consumed SignalCancel (trace (run h mk t0 order)) = true
    /\ final_status (run h mk t0 order) = OrderStatusValidated.
Proof.
  intros h mk t0 order Hf Hc. unfold delivered in Hc.
  wf_run; wf_facts; rewrite ?Hc in *; cbn [orb negb andb] in *;
    try congruence.
  all: unfold final_status, count; cbn [returned trace final].
  all: destruct Hstopped as [-> ->]; [assumption|].
  all: wf_observe; wf_simpl; rewrite ?Hconsumed0; auto.
Qed.

Lemma C1_witness :
  returned (run (h_signal SignalCancel 0) fresh 0 order1)
  = Some (Errorf "order cancelled by user" [])
  /\ count is_rollback (trace (run (h_signal SignalCancel 0) fresh 0 order1))
     = 1%nat
  /\ consumed SignalCancel (trace (run (h_signal SignalCancel 0) fresh 0 order1))
     = true
  /\ final_status (run (h_signal SignalCancel 0) fresh 0 order1)
     = OrderStatusValidated.
Proof.
  apply (C1_cancel_during_validate (h_signal SignalCancel 0) fresh 0 order1);
    reflexivity.
Defined.

End CancellationClaims.

Section CompletionClaims.

Import workflows observe reasoning samples.

(** C4 (the code departs from the claim).  In every execution in which a
    Cancel is consumed after the status has been set to Completed, the
    run still returns without error and no rollback is ever invoked, but
    the status the [state] query finally answers is Cancelled, not
    Completed: the signal handler, still running while the customer is
    being notified, overwrites it. *)
Theorem C4_cancel_after_completed :
  forall (h : History) (mk : gmap string Z) (t0 : Time) (order : Order.t),
    consumed SignalCancel (after_completed (trace (run h mk t0 order))) = true ->
    returned (run h mk t0 order) = None
    /\ count is_rollback (trace (run h mk t0 order)) = 0%nat
    /\ final_status (run h mk t0 order) = OrderStatusCancelled.
Proof.
  intros h mk t0 order.
  wf_run; wf_facts; unfold final_status, count; cbn [returned trace final];
    wf_observe; wf_simpl.
  all: try (intros; discriminate).
  all: rewrite ?orb_false_r; intros Hk; repeat split; auto.
Qed.

Lemma C4_witness :
  returned (run (h_signal SignalCancel 3) fresh 0 order1) = None
  /\ count is_rollback (trace (run (h_signal SignalCancel 3) fresh 0 order1))
     = 0%nat
  /\ final_status (run (h_signal SignalCancel 3) fresh 0 order1)
     = OrderStatusCancelled.
Proof.
  apply (C4_cancel_after_completed (h_signal SignalCancel 3) fresh 0 order1).
  reflexivity.
Defined.

End CompletionClaims.

Section GuardClaims.

Import workflows observe reasoning samples.

Lemma guarded_schedule (s : Step) (tr : list Event) :
  existsb (unguarded s) (schedule false false tr) = false -> guarded s tr.
Proof.
  intros H pre o t post -> Hs.
  destruct (consumed SignalCancel pre) eqn:Hc; [|reflexivity].
  assert (Hin := schedule_complete pre post o t). rewrite Hc in Hin.
  assert (Hex : existsb (unguarded s)
                  (schedule false false (pre ++ Invoked o t :: post)) = true).
  { apply existsb_exists. eexists. split; [exact Hin|].
    unfold unguarded, is_step. simpl. rewrite Hs. destruct s; reflexivity. }
  congruence.
Qed.

Lemma schedule_sound (tr : list Event) :
  forall c e x,
    In x (schedule c e tr) ->
    exists pre post,
      tr = pre ++ Invoked (with_options x) (scheduled_task x) :: post
      /\ cancel_before x = c || consumed SignalCancel pre
      /\ expedite_before x = e || consumed SignalExpedite pre.
Proof.
  induction tr as [|ev tr IH]; intros c e x Hin; [destruct Hin|].
  assert (Hrest : forall c' e',
            c' = c || is_consumed SignalCancel ev ->
            e' = e || is_consumed SignalExpedite ev ->
            In x (schedule c' e' tr) ->
            exists pre post,
              ev :: tr = pre ++ Invoked (with_options x) (scheduled_task x) :: post
              /\ cancel_before x = c || consumed SignalCancel pre
              /\ expedite_before x = e || consumed SignalExpedite pre).
  { intros c' e' -> -> H. destruct (IH _ _ _ H) as (pre & post & -> & Hc & He).
    exists (ev :: pre), post. cbn [consumed]. rewrite !orb_assoc. auto. }
  destruct ev; cbn [schedule] in Hin;
    try (eapply Hrest; [reflexivity|reflexivity|exact Hin]).
  destruct Hin as [<-|Hin].
  - exists []. eexists. cbn. rewrite !orb_false_r. auto.
  - eapply Hrest; [| |exact Hin]; cbn; now rewrite orb_false_r.
Qed.

Lemma schedule_guarded (s : Step) (tr : list Event) :
  guarded s tr -> existsb (unguarded s) (schedule false false tr) = false.
Proof.
  intros H. destruct (existsb _ _) eqn:E; [|reflexivity].
  apply existsb_exists in E as (x & Hin & Hx).
  destruct (schedule_sound _ _ _ _ Hin) as (pre & post & -> & Hc & _).
  unfold unguarded in Hx. apply andb_prop in Hx as [Hs Hb].
  rewrite Hc in Hb. cbn in Hb. rewrite (H pre _ _ post eq_refl) in Hb.
  - discriminate.
  - unfold is_step in Hs.
    destruct (step_of (scheduled_task x)) as [[]|], s; congruence.
Qed.

(** C2, as worded, fails: when a Cancel is consumed while Process is in
    flight and Process succeeds, the customer notification of step 4 is
    still invoked, with the flag set. *)
Lemma C2_counterexample :
  ~ stated.every_step_guarded
      (trace (run (h_signal SignalCancel 2) fresh 0 order1)).
Proof.
  intros H. specialize (H Notify). apply schedule_guarded in H.
  vm_compute in H. discriminate.
Qed.

(** C2, amended.  In every execution the remote tasks of Validate, Payment
    and Process are never invoked once a Cancel has been consumed: Payment
    and Process are each preceded by a check of the cancellation flag, and
    Validate starts before the listener can consume anything.  (The
    notification of step 4 is not guarded: the check before it only
    logs.) *)
Theorem C2_steps_guarded :
  forall (h : History) (mk : gmap string Z) (t0 : Time) (order : Order.t),
    guarded Validate (trace (run h mk t0 order))
    /\ guarded Payment (trace (run h mk t0 order))
    /\ guarded Process (trace (run h mk t0 order)).
Proof.
  intros h mk t0 order.
  assert (H : forall s, s <> Notify ->
            existsb (unguarded s) (schedule false false (trace (run h mk t0 order)))
            = false).
  { intros s Hs.
    wf_run; wf_facts; cbn [trace]; wf_observe; wf_flags;
      destruct s; try congruence; reflexivity. }
  repeat split; apply guarded_schedule, H; discriminate.
Qed.

End GuardClaims.

Section StatusClaims.

Import workflows observe reasoning samples.

(** C3, as worded, fails: when an Expedite is consumed while Validate is in
    flight, the status leaves the path (Pending, Expedited, Validated,
    ...); and when a Cancel is consumed while Validate is in flight and
    Validate succeeds, the status goes from Pending to Cancelled and then
    to Validated. *)
Lemma C3_counterexample :
  ~ stated.status_monotone
      (trace (run (h_signal SignalExpedite 0) fresh 0 order1))
  /\ ~ stated.status_monotone
        (trace (run (h_signal SignalCancel 0) fresh 0 order1)).
Proof.
  unfold stated.status_monotone. split; vm_compute; discriminate.
Qed.

(** C3, amended.  In every execution the statuses written by the main
    step sequence only move forward along Pending, Validated, Processing,
    Completed, and Failed, once the main sequence has written it, is its
    last write; the only statuses the signal listener writes are
    Cancelled and Expedited. *)
Theorem C3_main_sequence_monotone :
  forall (h : History) (mk : gmap string Z) (t0 : Time) (order : Order.t),
    main_monotone (statuses_of MainSequence (trace (run h mk t0 order))) = true
    /\ forallb listener_status
         (statuses_of Listener (trace (run h mk t0 order))) = true.
Proof.
  intros h mk t0 order.
  wf_run; wf_facts; cbn [trace]; wf_observe; split; reflexivity.
Qed.

End StatusClaims.

Section VersionClaims.

Import workflows observe reasoning samples.

(** C5, as worded, fails: an instance recorded at version 1 whose
    validation fails never invokes the payment workflow. *)
Lemma C5_counterexample :
  ~ stated.payment_gate
      (run (h_fail (Remote "rejected") 0) (recorded_at 1) 0 order1).
Proof.
  intros H. destruct (H 1 eq_refl) as [_ H1].
  specialize (H1 ltac:(lia)). vm_compute in H1. discriminate.
Qed.

Lemma versioned_recorded (mk mk' : gmap string Z) (id : string) (hi v v' : Z) :
  versioned mk id hi v mk' -> mk' !! id = Some v' -> v = v'.
Proof.
  intros [[H ->]|(H & -> & ->)] H'.
  - congruence.
  - rewrite lookup_insert_eq in H'. congruence.
Qed.

(** C5, amended.  For every process instance, with [v] the version marker
    recorded for checkpoint "add-payment-processing" (the one found in the
    instance's history, whatever target the code requests, or the target 1
    when none was recorded yet): the payment workflow is invoked exactly
    once when [v >= 1], Validate succeeded and no Cancel was consumed
    while Validate was in flight, and is never invoked otherwise; in
    particular an instance recorded at 0 never invokes it. *)
Theorem C5_payment_gate :
  forall (h : History) (mk : gmap string Z) (t0 : Time) (order : Order.t)
         (v : Z),
    recorded (run h mk t0 order) !! "add-payment-processing" = Some v ->
    (forall v0, mk !! "add-payment-processing" = Some v0 -> v = v0)
    /\ (mk !! "add-payment-processing" = None -> v = 1)
    /\ count is_payment (trace (run h mk t0 order))
       = (if (1 <=? v) && succeeded (h 0%nat)
             && negb (delivered SignalCancel (h 0%nat))
          then 1%nat else 0%nat).
Proof.
  intros h mk t0 order v. unfold succeeded, delivered.
  wf_run; wf_facts; cbn [trace recorded]; intros Hv;
    match goal with
    | Hm : versioned _ _ _ _ _ |- _ =>
        pose proof (versioned_recorded _ _ _ _ _ _ Hm Hv) as ->;
        destruct Hm as [[Hm ->]|(Hm & _ & ->)]
    end.
  all: (split; [intros v0 H0; congruence|]).
  all: (split; [intros H0; try congruence;
                rewrite lookup_insert_eq in Hv; congruence|]).
  all: unfold count; wf_observe; rewrite ?Efail.
  all: rewrite ?Z.geb_leb in *; rewrite ?Eversion.
  all: wf_flags; cbn; try reflexivity.
  all: try (rewrite andb_false_r; reflexivity).
Qed.

Lemma C5_witness :
  count is_payment (trace (run h_quiet (recorded_at 0) 0 order1)) = 0%nat
  /\ count is_payment (trace (run h_quiet (recorded_at 1) 0 order1)) = 1%nat.
Proof.
  split.
  - apply (C5_payment_gate h_quiet (recorded_at 0) 0 order1 0). reflexivity.
  - apply (C5_payment_gate h_quiet (recorded_at 1) 0 order1 1). reflexivity.
Defined.

End VersionClaims.

Section PaymentWorkflowClaims.

Import workflows observe reasoning samples.

Lemma run_payment_exec (h : History) (order : Order.t)
    (P : (string * option error) * list Event -> Prop) :
  exec (PaymentWorkflow h order) (mkMachine tt ∅ 0%nat 0)
       (fun r _ t => P (r, t)) ->
  P (run_payment h order).
Proof.
  unfold exec, run_payment. destruct (PaymentWorkflow _ _ _) as [[r m] t].
  exact (fun H => H).
Qed.

(** C6.  In [PaymentWorkflow], whenever [AuthorizePayment] succeeds and
    the [CapturePayment] that follows fails with [e], [VoidAuthorization]
    is invoked with the authorization id that was obtained, and what the
    caller gets is the error that wraps [e], whatever the outcome of the
    void attempt. *)
Theorem C6_void_on_capture_failure :
  forall (h : History) (order : Order.t) (e : error),
    failure (h 0%nat) = None ->
    failure (h 1%nat) = Some e ->
    (run_payment h order).1
    = (""%string, Some (Wrapf "payment capture failed: %w" e))
    /\ wraps (Wrapf "payment capture failed: %w" e) e
    /\ invoked (run_payment h order).2
       = [task.AuthorizePayment order;
          task.CapturePayment order (result (h 0%nat));
          task.VoidAuthorization (result (h 0%nat))]
    /\ forall h' : History,
         h' 0%nat = h 0%nat -> h' 1%nat = h 1%nat ->
         (run_payment h' order).1 = (run_payment h order).1.
Proof.
  intros h order e H0 H1.
  assert (R : forall g : History,
            failure (g 0%nat) = None -> failure (g 1%nat) = Some e ->
            (run_payment g order).1
            = (""%string, Some (Wrapf "payment capture failed: %w" e))
            /\ invoked (run_payment g order).2
               = [task.AuthorizePayment order;
                  task.CapturePayment order (result (g 0%nat));
                  task.VoidAuthorization (result (g 0%nat))]).
  { intros g G0 G1. apply run_payment_exec.
    repeat wf_step. rewrite G0. repeat wf_step. rewrite G1.
    repeat wf_step. split; reflexivity. }
  destruct (R h H0 H1) as [Hr Hi].
  split; [exact Hr|].
  split; [unfold wraps; cbn [chain]; right; destruct e; left; reflexivity|].
  split; [exact Hi|].
  intros h' E0 E1. rewrite Hr. apply R; congruence.
Qed.

Lemma C6_witness :
  (run_payment h_capture_fails order1).1
  = (""%string,
     Some (Wrapf "payment capture failed: %w" (Remote "gateway down")))
  /\ invoked (run_payment h_capture_fails order1).2
     = [task.AuthorizePayment order1;
        task.CapturePayment order1 "AUTH-1";
        task.VoidAuthorization "AUTH-1"].
Proof.
  destruct (C6_void_on_capture_failure h_capture_fails order1
              (Remote "gateway down") eq_refl eq_refl) as (Hr & _ & Hi & _).
  split; [exact Hr | exact Hi].
Defined.

End PaymentWorkflowClaims.

Section ProcessClaims.

Import workflows observe reasoning samples Activities.

(** C8, as worded, fails: under a context that is already done
    [ProcessOrder] returns the context's error although the amount of
    [order1] equals the total of its line items.  Read with the exact sum
    it fails under a live context as well: the amount 10^16 + 2 of
    [rounding_order] is the exact total of its items 10^16, 1 and 1, but
    the float64 accumulation rounds each addition of 1 away and
    [ProcessOrder] reports a mismatch. *)
Lemma C8_counterexample :
  ~ stated.process_contract (activity.cancelled_ctx 1) order1
  /\ ~ stated.process_contract_exact (activity.background 1) rounding_order.
Proof.
  split.
  - intros [H _]. specialize (H eq_refl). vm_compute in H. discriminate.
  - intros H. specialize (H (10 ^ 16 + 2) eq_refl eq_refl).
    vm_compute in H. discriminate.
Qed.

(** C8, amended.  Called under a context that is not done at its waits,
    [ProcessOrder] succeeds for every order whose declared amount equals
    the float64 total of quantity times price accumulated over its line
    items, and for every order where the two differ it fails with the
    amount-mismatch error.  Whenever the Process step of [OrderWorkflow]
    is reached and reported as failed with [e] (Process is the third
    awaited task of a run whose version marker [v] is at least 1, the
    second otherwise), the main sequence sets the status to Failed (its
    last status write), invokes [RollbackOrder] once and returns the
    processing failure that wraps [e]. *)
Theorem C8_process_amended :
  forall (ctx : activity.Context) (order : Order.t),
    activity.Done ctx 0 = false ->
    (eq (calculatedTotal (Order.Items order)) (Order.Amount order) = true ->
     activity.Done ctx 1 = false ->
     ProcessOrder ctx order = Returned None)
    /\ (eq (calculatedTotal (Order.Items order)) (Order.Amount order) = false ->
        exists e,
          ProcessOrder ctx order = Returned (Some e)
          /\ stated.amount_mismatch e)
    /\ (forall (h : History) (mk : gmap string Z) (t0 : Time) (v : Z)
               (e : error),
          recorded (run h mk t0 order) !! "add-payment-processing" = Some v ->
          In (task.ProcessOrder order) (invoked (trace (run h mk t0 order))) ->
          failure (h (if (1 <=? v)%Z then 2%nat else 1%nat)) = Some e ->
          returned (run h mk t0 order) = Some (Wrapf "processing failed: %w" e)
          /\ List.last (statuses_of MainSequence (trace (run h mk t0 order)))
                       OrderStatusPending
             = OrderStatusFailed
          /\ count is_rollback (trace (run h mk t0 order)) = 1%nat).
Proof.
  intros ctx order Hlive. unfold ProcessOrder, ne, eq. rewrite Hlive.
  split; [|split].
  - intros -> ->. reflexivity.
  - intros ->. eexists. split; [reflexivity|]. eexists. reflexivity.
  - intros h mk t0.
    wf_run; wf_facts; cbn [trace returned recorded]; unfold count;
      wf_observe; intros ver err Hv Hin Hf;
      match goal with
      | Hm : versioned _ _ _ _ _ |- _ =>
          pose proof (versioned_recorded _ _ _ _ _ _ Hm Hv) as ->
      end;
      repeat (destruct Hin as [Hin|Hin]; try discriminate Hin);
      try contradiction;
      rewrite ?Z.geb_leb in *; rewrite Eversion in Hf;
      try congruence.
    all: repeat split; congruence.
Qed.

Lemma C8_witness :
  ProcessOrder (activity.background 1) order1 = Returned None
  /\ (exists e,
        ProcessOrder (activity.background 1) mismatch_order = Returned (Some e)
        /\ stated.amount_mismatch e)
  /\ returned (run (h_fail (Remote "amount mismatch") 2) fresh 0 mismatch_order)
     = Some (Wrapf "processing failed: %w" (Remote "amount mismatch")).
Proof.
  destruct (C8_process_amended (activity.background 1) order1 eq_refl)
    as (H1 & _ & _).
  destruct (C8_process_amended (activity.background 1) mismatch_order eq_refl)
    as (_ & H2 & H3).
  split; [apply H1; reflexivity|].
  split; [apply H2; reflexivity|].
  apply (H3 (h_fail (Remote "amount mismatch") 2) fresh 0 1
            (Remote "amount mismatch")).
  - reflexivity.
  - vm_compute. tauto.
  - reflexivity.
Defined.

End ProcessClaims.

Section ExpediteClaims.

Import workflows observe reasoning samples.

(** C9, as worded, fails: when an Expedite is consumed while Validate is
    in flight, the flag is set before Payment, Process and Notify begin,
    yet the notification of step 4 is scheduled with the standard
    options. *)
Lemma C9_counterexample :
  ~ stated.expedite_honoured
      (trace (run (h_signal SignalExpedite 0) fresh 0 order1)).
Proof.
  intros H.
  assert (Hin : In (mkScheduled false true (ForActivity activityOptions)
                      (task.NotifyCustomer order1
                         "Your expedited order has been processed successfully"))
                   (schedule false false
                      (trace (run (h_signal SignalExpedite 0) fresh 0 order1)))).
  { vm_compute. right. right. right. left. reflexivity. }
  destruct (schedule_sound _ _ _ _ Hin) as (pre & post & Htr & _ & He).
  cbn in Htr, He.
  destruct (H pre _ _ post Notify Htr eq_refl (eq_sym He))
    as (ao & rp & [= <-] & Hlt & _).
  vm_compute in Hlt. discriminate.
Qed.

Lemma as_planned_schedule (order : Order.t) (tr : list Event) :
  Forall (as_planned order) (schedule false false tr) ->
  forall pre o t post s,
    tr = pre ++ Invoked o t :: post ->
    step_of t = Some s ->
    o = step_options order (consumed SignalExpedite pre) s.
Proof.
  intros H pre o t post s -> Hs.
  exact (proj1 (List.Forall_forall _ _) H _
           (schedule_complete pre post o t) s Hs).
Qed.

(** C9, amended.  In every execution each step is scheduled with options
    fixed by the value of the expedite flag at the moment the step
    begins, so that an Expedite consumed while the step is in flight does
    not change them: Validate and Process get the expedited options when
    the flag is set and the standard ones otherwise, Payment always its
    child-workflow options and Notify always the standard options.  The
    expedited options have shorter start-to-close and heartbeat timeouts
    than the standard ones, and those of Validate a retry policy with
    shorter intervals and fewer attempts.  Validate, started from a state
    where the flag is set, is scheduled with its expedited options. *)
Theorem C9_expedited_options :
  (forall (h : History) (mk : gmap string Z) (t0 : Time) (order : Order.t)
          pre o t post s,
     trace (run h mk t0 order) = pre ++ Invoked o t :: post ->
     step_of t = Some s ->
     o = step_options order (consumed SignalExpedite pre) s)
  /\ (forall (h : History) (v : Z) (order : Order.t) (m : Machine Locals),
        inv (locals m) ->
        expedited (locals m) = true ->
        hd_error (schedule false true (stepValidate h activityOptions v order m).2)
        = Some (mkScheduled false true (ForActivity expeditedValidateOptions)
                            (task.ValidateOrder order)))
  /\ (forall ao,
        ao = expeditedValidateOptions \/ ao = expeditedProcessOptions ->
        ActivityOptions.StartToCloseTimeout ao
        < ActivityOptions.StartToCloseTimeout activityOptions
        /\ ActivityOptions.HeartbeatTimeout ao
           < ActivityOptions.HeartbeatTimeout activityOptions)
  /\ (exists rp rp',
        ActivityOptions.RetryPolicy expeditedValidateOptions = Some rp
        /\ ActivityOptions.RetryPolicy activityOptions = Some rp'
        /\ RetryPolicy.InitialInterval rp < RetryPolicy.InitialInterval rp'
        /\ RetryPolicy.MaximumInterval rp < RetryPolicy.MaximumInterval rp'
        /\ RetryPolicy.MaximumAttempts rp < RetryPolicy.MaximumAttempts rp').
Proof.
  split; [|split; [|split]].
  - intros h mk t0 order. apply as_planned_schedule.
    wf_run; wf_facts; cbn [trace]; wf_observe; wf_flags.
    all: repeat constructor.
    all: intros s Hs; cbn in Hs |- *;
      first [discriminate Hs | injection Hs as <-];
      rewrite ?orb_false_r, ?orb_true_r; try reflexivity.
    all: repeat match goal with
                | |- context [consumed SignalExpedite ?t] =>
                    destruct (consumed SignalExpedite t)
                end; cbn in *; congruence.
  - intros h v order m Hinv He.
    change (exec (stepValidate h activityOptions v order) m
              (fun _ _ t =>
                 hd_error (schedule false true t)
                 = Some (mkScheduled false true
                           (ForActivity expeditedValidateOptions)
                           (task.ValidateOrder order)))).
    repeat first [wf_step | wf_branch]; try congruence; reflexivity.
  - intros ao [-> | ->]; split; reflexivity.
  - do 2 eexists. repeat split; reflexivity.
Qed.

Lemma C9_witness :
  ForActivity expeditedProcessOptions
  = step_options order1
      (consumed SignalExpedite
         (firstn 17 (trace (run (h_signal SignalExpedite 0) fresh 0 order1))))
      Process.
Proof.
  apply (proj1 C9_expedited_options (h_signal SignalExpedite 0) fresh 0 order1
           (firstn 17 (trace (run (h_signal SignalExpedite 0) fresh 0 order1)))
           (ForActivity expeditedProcessOptions)
           (task.ProcessOrder order1)
           (skipn 18 (trace (run (h_signal SignalExpedite 0) fresh 0 order1)))
           Process);
    [vm_compute; reflexivity | reflexivity].
Defined.

End ExpediteClaims.

Import listener samples.

Section StringFacts.

Lemma length_append (a b : string) :
  String.length (a +:+ b) = (String.length a + String.length b)%nat.
Proof. induction a as [|c a IH]; simpl; [reflexivity | now rewrite IH]. Qed.

Lemma length_substring (n : nat) :
  forall s : string,
    (n <= String.length s)%nat -> String.length (String.substring 0 n s) = n.
Proof.
  induction n as [|n IH]; intros [|c s] H; simpl in *;
    try lia; try reflexivity.
  rewrite IH by lia. reflexivity.
Qed.

Lemma substring_prefix (a : string) :
  forall b : string, String.substring 0 (String.length a) (a +:+ b) = a.
Proof. induction a as [|c a IH]; intros b; simpl; [now destruct b | now rewrite IH]. Qed.

Lemma substring_skip (a : string) :
  forall (n : nat) (b : string),
    String.substring (String.length a) n (a +:+ b) = String.substring 0 n b.
Proof. induction a as [|c a IH]; intros n b; simpl; [reflexivity | apply IH]. Qed.

End StringFacts.

Section RefundFacts.

Import PaymentActivities.
Local Open Scope string_scope.

Lemma RefundPayment_ok (ctx : activity.Context) (transactionID : string)
    (amount : float64) :
  activity.Done ctx 0 = false ->
  RefundPayment ctx transactionID amount
  = Returned ("REFUND-"
                +:+ (if Z.ltb 12 (len transactionID)
                     then String.substring 4 8 transactionID
                     else transactionID)
                +:+ "-" +:+ itoa (activity.Attempt ctx), None).
Proof.
  intros Hlive. unfold RefundPayment, slice. rewrite Hlive.
  destruct (Z.ltb_spec 12 (len transactionID)) as [H|H]; [|reflexivity].
  assert (Hle : Z.leb (Z.of_nat 12) (len transactionID) = true)
    by (apply Z.leb_le; lia).
  rewrite Hle. reflexivity.
Qed.

Lemma AuthorizePayment_ok (ctx : activity.Context) (order : Order.t) :
  activity.Done ctx 0 = false ->
  8 <= len (Order.ID order) ->
  le (Order.Amount order) (of_Z 0) = false ->
  gt (Order.Amount order) (of_Z 9999) = false ->
  AuthorizePayment ctx order
  = Returned ("AUTH-" +:+ String.substring 0 8 (Order.ID order) +:+ "-"
                +:+ itoa (activity.Attempt ctx), None).
Proof.
  intros Hlive Hlen Hpos Hmax. unfold AuthorizePayment.
  rewrite Hlive, Hpos, Hmax, (slice_to_long _ 8) by exact Hlen. reflexivity.
Qed.

Lemma CapturePayment_ok (ctx : activity.Context) (order : Order.t)
    (authorizationID : string) :
  activity.Done ctx 0 = false ->
  8 <= len (Order.ID order) ->
  authorizationID <> "" ->
  CapturePayment ctx order authorizationID
  = Returned ("TXN-" +:+ String.substring 0 8 (Order.ID order) +:+ "-"
                +:+ itoa (activity.Attempt ctx), None).
Proof.
  intros Hlive Hlen Ha. unfold CapturePayment. apply String.eqb_neq in Ha.
  rewrite Hlive, Ha, (slice_to_long _ 8) by exact Hlen. reflexivity.
Qed.

(** X1. [RefundPayment] never panics: its slice is taken only from
    transaction ids longer than 12 bytes.  Under a context that is not
    done it returns, without error, the refund id built from bytes 4 to
    12 of such an id, and from the whole id when it has 12 bytes or
    fewer (the empty id included). *)
Theorem X1_refund_never_panics :
  forall (ctx : activity.Context) (transactionID : string) (amount : float64),
    (exists r, RefundPayment ctx transactionID amount = Returned r)
    /\ (activity.Done ctx 0 = false ->
        RefundPayment ctx transactionID amount
        = Returned ("REFUND-"
                      +:+ (if Z.ltb 12 (len transactionID)
                           then String.substring 4 8 transactionID
                           else transactionID)
                      +:+ "-" +:+ itoa (activity.Attempt ctx), None)).
Proof.
  intros ctx txn amount. split; [|apply RefundPayment_ok].
  destruct (activity.Done ctx 0) eqn:Hd.
  - unfold RefundPayment. rewrite Hd. eauto.
  - rewrite (RefundPayment_ok _ _ _ Hd). eauto.
Qed.

Lemma X1_witness :
  RefundPayment (activity.background 1) "" (of_Z 5)
  = Returned ("REFUND--1", None)
  /\ RefundPayment (activity.background 2) "TXN-TEST-PAY-1" (of_Z 5)
     = Returned ("REFUND-TEST-PAY-2", None).
Proof.
  split.
  - apply (X1_refund_never_panics (activity.background 1) "" (of_Z 5)).
    reflexivity.
  - apply (X1_refund_never_panics (activity.background 2) "TXN-TEST-PAY-1"
             (of_Z 5)).
    reflexivity.
Defined.

End RefundFacts.

Section PaymentIdFacts.

Import PaymentActivities.
Local Open Scope string_scope.

(** X2. Authorize, capture, refund in a row, each under a context that is
    not done, for an order with [0 < amount <= 9999] and an identifier of
    at least 8 bytes: the three calls succeed, the refund id carries
    the same 8 identifier bytes as the order, and the authorization,
    transaction and refund ids are pairwise distinct. *)
Theorem X2_payment_flow_ids :
  forall (ctxA ctxC ctxR : activity.Context) (order : Order.t)
         (refundAmount : float64),
    activity.Done ctxA 0 = false ->
    activity.Done ctxC 0 = false ->
    activity.Done ctxR 0 = false ->
    8 <= len (Order.ID order) ->
    lt (of_Z 0) (Order.Amount order) = true ->
    le (Order.Amount order) (of_Z 9999) = true ->
    exists authID txnID refundID,
      AuthorizePayment ctxA order = Returned (authID, None)
      /\ CapturePayment ctxC order authID = Returned (txnID, None)
      /\ RefundPayment ctxR txnID refundAmount = Returned (refundID, None)
      /\ refundID = "REFUND-" +:+ String.substring 0 8 (Order.ID order)
                      +:+ "-" +:+ itoa (activity.Attempt ctxR)
      /\ authID <> txnID /\ authID <> refundID /\ txnID <> refundID.
Proof.
  intros ctxA ctxC ctxR order amount HA HC HR Hlen Hpos Hmax.
  set (id8 := String.substring 0 8 (Order.ID order)).
  assert (Hid8 : String.length id8 = 8%nat).
  { apply length_substring. unfold len in Hlen. lia. }
  do 3 eexists.
  split; [apply AuthorizePayment_ok; auto using lt_not_ge, le_not_gt|].
  split; [apply CapturePayment_ok; auto; discriminate|].
  fold id8. rewrite (RefundPayment_ok _ _ _ HR).
  assert (Hlong : Z.ltb 12 (len ("TXN-" +:+ id8 +:+ "-"
                                  +:+ itoa (activity.Attempt ctxC))) = true).
  { apply Z.ltb_lt. unfold len. rewrite !length_append, Hid8. simpl. lia. }
  rewrite Hlong.
  assert (Hpart : String.substring 4 8
                    ("TXN-" +:+ id8 +:+ "-" +:+ itoa (activity.Attempt ctxC))
                  = id8).
  { change 4%nat with (String.length "TXN-").
    rewrite substring_skip. rewrite <- Hid8 at 1. apply substring_prefix. }
  rewrite Hpart.
  repeat split; discriminate.
Qed.

Lemma X2_witness :
  exists authID txnID refundID,
    AuthorizePayment (activity.background 1) order1 = Returned (authID, None)
    /\ CapturePayment (activity.background 1) order1 authID
       = Returned (txnID, None)
    /\ RefundPayment (activity.background 1) txnID (of_Z 1000)
       = Returned (refundID, None)
    /\ refundID = "REFUND-TEST-PAY-1".
Proof.
  destruct (X2_payment_flow_ids (activity.background 1) (activity.background 1)
              (activity.background 1) order1 (of_Z 1000)
              eq_refl eq_refl eq_refl ltac:(vm_compute; discriminate)
              eq_refl eq_refl)
    as (a & t & r & Ha & Ht & Hr & Hid & _).
  exists a, t, r. repeat split; assumption.
Defined.

(** X3. [AuthorizePayment] and [CapturePayment] panic on nothing but a short
    identifier reached past their guards: [AuthorizePayment] panics
    exactly when its context is not done, the amount passes both amount
    guards and the identifier has fewer than 8 bytes; [CapturePayment]
    exactly when its context is not done, the authorization id is not
    empty and the identifier has fewer than 8 bytes.  In particular a
    rejected amount or an empty authorization id yields the error, never
    the panic, whatever the identifier. *)
Theorem X3_payment_panics_iff :
  forall (ctx : activity.Context) (order : Order.t) (authorizationID : string),
    ((exists r, AuthorizePayment ctx order = Panicked r)
     <-> activity.Done ctx 0 = false
         /\ le (Order.Amount order) (of_Z 0) = false
         /\ gt (Order.Amount order) (of_Z 9999) = false
         /\ len (Order.ID order) < 8)
    /\ ((exists r, CapturePayment ctx order authorizationID = Panicked r)
        <-> activity.Done ctx 0 = false
            /\ authorizationID <> ""
            /\ len (Order.ID order) < 8).
Proof.
  intros ctx order a. unfold AuthorizePayment, CapturePayment, slice_to.
  destruct (activity.Done ctx 0).
  { split; split; try (intros [r H]; discriminate);
      intros [H _]; discriminate. }
  destruct (Z.leb_spec (Z.of_nat 8) (len (Order.ID order))) as [Hl|Hl];
    change (Z.of_nat 8) with 8 in Hl.
  - split; split; try (intros (_ & _ & _ & H); lia);
      try (intros (_ & _ & H); lia).
    + destruct (le _ _), (gt _ _); intros [r H]; discriminate.
    + destruct (String.eqb a ""); intros [r H]; discriminate.
  - split; split.
    + destruct (le _ _), (gt _ _); intros [r H]; try discriminate; auto.
    + intros (_ & -> & -> & _). eauto.
    + destruct (String.eqb_spec a ""); intros [r H]; try discriminate; auto.
    + intros (_ & Ha & _). apply String.eqb_neq in Ha. rewrite Ha. eauto.
Qed.

(** X4. [AuthorizePayment] compares with [<=] and [>], which are both false
    on NaN: an order whose amount is NaN passes the two amount guards
    and is authorized like a valid one (identifier of 8 bytes or more,
    context not done), whereas an amount of minus zero or of plus
    infinity is rejected. *)
Theorem X4_authorize_nan_amount :
  forall (ctx : activity.Context) (order : Order.t),
    activity.Done ctx 0 = false ->
    8 <= len (Order.ID order) ->
    (Order.Amount order = S754_nan ->
     AuthorizePayment ctx order
     = Returned ("AUTH-" +:+ String.substring 0 8 (Order.ID order) +:+ "-"
                   +:+ itoa (activity.Attempt ctx), None))
    /\ (Order.Amount order = S754_zero true
        \/ Order.Amount order = S754_infinity false ->
        exists e, AuthorizePayment ctx order = Returned ("", Some e)).
Proof.
  intros ctx order Hlive Hlen. split.
  - intros Hnan. apply AuthorizePayment_ok; auto; rewrite Hnan; reflexivity.
  - unfold AuthorizePayment. rewrite Hlive.
    intros [-> | ->]; cbn; eauto.
Qed.

Lemma X4_witness :
  AuthorizePayment (activity.background 1)
    (Order.mk "TEST-PAY-NAN" [] S754_nan OrderStatusPending 0 0)
  = Returned ("AUTH-TEST-PAY-1", None).
Proof.
  apply (X4_authorize_nan_amount (activity.background 1)
           (Order.mk "TEST-PAY-NAN" [] S754_nan OrderStatusPending 0 0)
           eq_refl ltac:(vm_compute; discriminate)).
  reflexivity.
Defined.

End PaymentIdFacts.

Section IdentifierFacts.

Import PaymentActivities.
Local Open Scope string_scope.

Lemma to_int_not_nil (a : Z) :
  Z.to_int a <> Decimal.Pos Decimal.Nil
  /\ Z.to_int a <> Decimal.Neg Decimal.Nil.
Proof.
  split; intros H; pose proof (DecimalZ.of_to a) as E; rewrite H in E;
    cbn in E; subst a; discriminate H.
Qed.

Lemma itoa_inj (a b : Z) : itoa a = itoa b -> a = b.
Proof.
  unfold itoa. intros H.
  apply (f_equal NilZero.int_of_string) in H.
  rewrite !NilZero.isi in H by apply to_int_not_nil.
  injection H as H.
  apply (f_equal Z.of_int) in H. now rewrite !DecimalZ.of_to in H.
Qed.

Lemma append_inj (a : string) :
  forall a' x y : string,
    String.length a = String.length a' ->
    a +:+ x = a' +:+ y -> a = a' /\ x = y.
Proof.
  induction a as [|c a IH]; intros [|c' a'] x y Hlen H; simpl in *;
    try discriminate; [auto|].
  injection H as -> H. injection Hlen as Hlen.
  destruct (IH _ _ _ Hlen H) as [-> ->]. auto.
Qed.

(** X5. Authorization ids are not unique per order: two authorizations
    that succeed get the same id exactly when the order ids agree on
    their first 8 bytes and the attempt numbers agree.  So two different
    orders whose ids share an 8-byte prefix collide, and a retry of the
    same order gets a different id. *)
Theorem X5_authorization_id_collisions :
  forall (ctx ctx' : activity.Context) (order order' : Order.t)
         (id id' : string),
    AuthorizePayment ctx order = Returned (id, None) ->
    AuthorizePayment ctx' order' = Returned (id', None) ->
    (id = id'
     <-> String.substring 0 8 (Order.ID order)
         = String.substring 0 8 (Order.ID order')
         /\ activity.Attempt ctx = activity.Attempt ctx').
Proof.
  intros ctx ctx' order order' id id'.
  unfold AuthorizePayment, slice_to.
  destruct (activity.Done ctx 0); [discriminate|].
  destruct (le (Order.Amount order) (of_Z 0)); [discriminate|].
  destruct (gt (Order.Amount order) (of_Z 9999)); [discriminate|].
  destruct (Z.leb_spec (Z.of_nat 8) (len (Order.ID order))) as [Hl|];
    [|discriminate].
  destruct (activity.Done ctx' 0); [discriminate|].
  destruct (le (Order.Amount order') (of_Z 0)); [discriminate|].
  destruct (gt (Order.Amount order') (of_Z 9999)); [discriminate|].
  destruct (Z.leb_spec (Z.of_nat 8) (len (Order.ID order'))) as [Hl'|];
    [|discriminate].
  intros [= <-] [= <-]. unfold len in Hl, Hl'.
  split.
  - intros H.
    apply (append_inj "AUTH-" "AUTH-") in H as [_ H]; [|reflexivity].
    apply append_inj in H as [H1 H2];
      [|rewrite !length_substring by lia; reflexivity].
    apply (append_inj "-" "-") in H2 as [_ H2]; [|reflexivity].
    split; [exact H1 | exact (itoa_inj _ _ H2)].
  - intros [-> ->]. reflexivity.
Qed.

Lemma X5_witness :
  "AUTH-TEST-PAY-1" = "AUTH-TEST-PAY-1"
  <-> String.substring 0 8 "TEST-PAY-001" = String.substring 0 8 "TEST-PAY-002"
      /\ 1 = 1.
Proof.
  exact (X5_authorization_id_collisions
           (activity.background 1) (activity.background 1) order1
           (Order.mk "TEST-PAY-002" [] (of_Z 25) OrderStatusPending 0 0)
           "AUTH-TEST-PAY-1" "AUTH-TEST-PAY-1" eq_refl eq_refl).
Defined.

End IdentifierFacts.

Section ProcessOrderFacts.

Import Activities.

Lemma SFeqb_nan_r (x : float64) : SFeqb x S754_nan = false.
Proof. destruct x as [s| s| |s m e]; try destruct s; reflexivity. Qed.

Lemma SFeqb_nan_l (x : float64) : SFeqb S754_nan x = false.
Proof. destruct x as [s| s| |s m e]; reflexivity. Qed.

Lemma SFeqb_zero_l (s : bool) (x : float64) :
  SFeqb (S754_zero s) x = true <-> exists s', x = S754_zero s'.
Proof.
  destruct x as [s'| s'| |s' m e]; unfold SFeqb; simpl.
  - split; [eauto | reflexivity].
  - destruct s'; split; try discriminate; intros [? ?]; discriminate.
  - split; try discriminate; intros [? ?]; discriminate.
  - destruct s'; split; try discriminate; intros [? ?]; discriminate.
Qed.

(** X6. An order without items is processed, under a context that is not
    done, exactly when its declared amount is a zero (of either sign):
    the loop leaves the total at [0.0]. *)
Theorem X6_process_no_items :
  forall (ctx : activity.Context) (order : Order.t),
    activity.Done ctx 0 = false ->
    activity.Done ctx 1 = false ->
    Order.Items order = [] ->
    (ProcessOrder ctx order = Returned None
     <-> exists s : bool, Order.Amount order = S754_zero s).
Proof.
  intros ctx order H0 H1 Hitems.
  unfold ProcessOrder. rewrite H0, H1, Hitems.
  unfold calculatedTotal, ne, zero. simpl fold_left.
  pose proof (SFeqb_zero_l false (Order.Amount order)) as Hz.
  destruct (SFeqb (S754_zero false) (Order.Amount order)); simpl.
  - split; [intros _; apply Hz; reflexivity | reflexivity].
  - split; [discriminate | intros H; apply Hz in H; discriminate].
Qed.

Lemma X6_witness :
  ProcessOrder (activity.background 1)
    (Order.mk "EMPTY-0001" [] (S754_zero true) OrderStatusPending 0 0)
  = Returned None
  /\ ProcessOrder (activity.background 1)
       (Order.mk "EMPTY-0001" [] (of_Z 1000) OrderStatusPending 0 0)
     <> Returned None.
Proof.
  split.
  - apply (X6_process_no_items (activity.background 1)
             (Order.mk "EMPTY-0001" [] (S754_zero true) OrderStatusPending 0 0));
      try reflexivity.
    exists true. reflexivity.
  - intros H.
    apply (X6_process_no_items (activity.background 1)
             (Order.mk "EMPTY-0001" [] (of_Z 1000) OrderStatusPending 0 0))
      in H; try reflexivity.
    destruct H as [s H]. vm_compute in H. discriminate.
Defined.

(** X7. [ProcessOrder] never succeeds when the declared amount or the
    accumulated total is not a number: [!=] holds of a NaN and anything,
    so the call reports an error (the mismatch, or the context's own
    when it is done) under every context. *)
Theorem X7_process_nan :
  forall (ctx : activity.Context) (order : Order.t),
    Order.Amount order = S754_nan
    \/ calculatedTotal (Order.Items order) = S754_nan ->
    exists e : error, ProcessOrder ctx order = Returned (Some e).
Proof.
  intros ctx order H. unfold ProcessOrder.
  destruct (activity.Done ctx 0); [eauto|].
  assert (ne (calculatedTotal (Order.Items order)) (Order.Amount order) = true)
    as ->.
  { unfold ne.
    destruct H as [-> | ->]; [rewrite SFeqb_nan_r | rewrite SFeqb_nan_l];
      reflexivity. }
  eauto.
Qed.

Lemma X7_witness :
  exists e : error,
    ProcessOrder (activity.background 1)
      (Order.mk "TEST-PAY-001" (Order.Items order1) S754_nan
                OrderStatusPending 0 0)
    = Returned (Some e).
Proof.
  apply (X7_process_nan (activity.background 1)
           (Order.mk "TEST-PAY-001" (Order.Items order1) S754_nan
                     OrderStatusPending 0 0)).
  left. reflexivity.
Defined.

(** X8. The verdict of [ProcessOrder] depends on the order of the line
    items: there are two orders with the same amount whose items are the
    same up to their order, one processed and the other refused with
    the amount mismatch, under the same context. *)
Theorem X8_process_item_order :
  exists (o o' : Order.t) (e : error),
    Permutation (Order.Items o) (Order.Items o')
    /\ Order.Amount o = Order.Amount o'
    /\ Order.ID o = Order.ID o'
    /\ ProcessOrder (activity.background 1) o = Returned (Some e)
    /\ ProcessOrder (activity.background 1) o' = Returned None.
Proof.
  exists rounding_order, rounding_order_reversed.
  eexists. split; [|split; [|split; [|split]]].
  - unfold rounding_order_reversed. simpl. apply Permutation_rev.
  - reflexivity.
  - reflexivity.
  - vm_compute. reflexivity.
  - vm_compute. reflexivity.
Qed.

End ProcessOrderFacts.

Section StarterFacts.

Import Activities starter.

(** X9. The order the starter builds is not always one [ProcessOrder]
    accepts: with the flag's default amount [1000.0] the adjusted prices
    add up to the amount and the order is processed, with amount [100.0]
    the float64 total of the adjusted prices differs from the amount and
    the order is refused with the mismatch, whatever the identifier and
    the clock. *)
Theorem X9_starter_order_total :
  forall (ctx : activity.Context) (generated orderID : string)
         (created updated : Time),
    activity.Done ctx 0 = false ->
    activity.Done ctx 1 = false ->
    ProcessOrder ctx (startOrder generated orderID (of_Z 1000) created updated)
    = Returned None
    /\ exists total : float64,
         ProcessOrder ctx
           (startOrder generated orderID (of_Z 100) created updated)
         = Returned
             (Some (Errorf "order amount mismatch: expected %.2f, got %.2f"
                           [ArgFloat total; ArgFloat (of_Z 100)])).
Proof.
  intros ctx generated orderID created updated H0 H1.
  unfold ProcessOrder. rewrite H0, H1. unfold startOrder.
  cbn [Order.Items Order.Amount].
  split.
  - assert (ne (calculatedTotal (adjustItems (of_Z 1000) sampleItems))
               (of_Z 1000) = false) as -> by (vm_compute; reflexivity).
    reflexivity.
  - assert (ne (calculatedTotal (adjustItems (of_Z 100) sampleItems))
               (of_Z 100) = true) as -> by (vm_compute; reflexivity).
    eexists. reflexivity.
Qed.

Lemma X9_witness :
  ProcessOrder (activity.background 1)
    (startOrder "6f1c1e9a-0000-4000-8000-000000000001" "" (of_Z 1000) 0 0)
  = Returned None.
Proof.
  apply (X9_starter_order_total (activity.background 1)
           "6f1c1e9a-0000-4000-8000-000000000001" "" 0 0);
    reflexivity.
Defined.

End StarterFacts.

Section PaymentWorkflowFacts.

Import workflows observe reasoning samples listener PaymentActivities.

(** X10. [PaymentWorkflow] returns without error exactly when both the
    authorization and the capture are reported as successful; its result
    is then the success text followed by the transaction id that was
    obtained, and otherwise the empty string.  The authorization is
    always the first task, the capture is attempted only with the
    authorization id that was obtained, and the authorization is voided
    exactly when it succeeded and the capture failed -- at most once,
    with that same id. *)
Theorem X10_payment_workflow_outcomes :
  forall (h : History) (order : Order.t),
    ((run_payment h order).1.2 = None
     <-> failure (h 0%nat) = None /\ failure (h 1%nat) = None)
    /\ (run_payment h order).1.1
       = (if succeeded (h 0%nat) && succeeded (h 1%nat)
          then "Payment processed successfully. Transaction ID: "
                 +:+ result (h 1%nat)
          else ""%string)
    /\ hd_error (invoked (run_payment h order).2)
       = Some (task.AuthorizePayment order)
    /\ List.filter is_void (invoked (run_payment h order).2)
       = (if succeeded (h 0%nat) && negb (succeeded (h 1%nat))
          then [task.VoidAuthorization (result (h 0%nat))] else [])
    /\ (forall (o : Order.t) (authorizationID : string),
          In (task.CapturePayment o authorizationID)
             (invoked (run_payment h order).2) ->
          o = order /\ authorizationID = result (h 0%nat)
          /\ failure (h 0%nat) = None).
Proof.
  intros h order. unfold succeeded. apply run_payment_exec.
  repeat wf_step. destruct (failure (h 0%nat)) as [e0|] eqn:E0;
    repeat wf_step;
    [|destruct (failure (h 1%nat)) as [e1|] eqn:E1; repeat wf_step].
  all: cbn; repeat split; try discriminate; try tauto.
  all: try (intros [? ?]; discriminate).
  all: repeat match goal with
              | H : _ \/ _ |- _ => destruct H
              | H : False |- _ => destruct H
              end; congruence.
Qed.

(** X11. Authorization and capture composed through [PaymentWorkflow]:
    when the two activities run under contexts that are not done, for an
    order with [0 < amount <= 9999] and an identifier of at least 8
    bytes, and the host reports to the workflow what they returned, the
    workflow returns the success text followed by
    [TXN-<first 8 bytes of the order id>-<attempt of the capture>], and
    never voids. *)
Theorem X11_payment_workflow_served :
  forall (h : History) (order : Order.t) (ctxA ctxC : activity.Context),
    activity.Done ctxA 0 = false ->
    activity.Done ctxC 0 = false ->
    8 <= len (Order.ID order) ->
    lt (of_Z 0) (Order.Amount order) = true ->
    le (Order.Amount order) (of_Z 9999) = true ->
    AuthorizePayment ctxA order
    = Returned (result (h 0%nat), failure (h 0%nat)) ->
    CapturePayment ctxC order (result (h 0%nat))
    = Returned (result (h 1%nat), failure (h 1%nat)) ->
    (run_payment h order).1
    = ("Payment processed successfully. Transaction ID: TXN-"
         +:+ String.substring 0 8 (Order.ID order)
         +:+ "-" +:+ itoa (activity.Attempt ctxC), None)
    /\ invoked (run_payment h order).2
       = [task.AuthorizePayment order;
          task.CapturePayment order
            ("AUTH-" +:+ String.substring 0 8 (Order.ID order)
               +:+ "-" +:+ itoa (activity.Attempt ctxA))].
Proof.
  intros h order ctxA ctxC HA HC Hlen Hpos Hmax Hauth Hcap.
  rewrite AuthorizePayment_ok in Hauth by auto using lt_not_ge, le_not_gt.
  injection Hauth as Hid0 Hf0.
  rewrite CapturePayment_ok in Hcap; auto.
  2: { rewrite <- Hid0. discriminate. }
  injection Hcap as Hid1 Hf1.
  apply run_payment_exec.
  repeat wf_step. rewrite <- Hf0. repeat wf_step. rewrite <- Hf1.
  repeat wf_step. rewrite <- Hid0, <- Hid1. split; reflexivity.
Qed.

Lemma X11_witness :
  (run_payment h_served order1).1
  = ("Payment processed successfully. Transaction ID: TXN-TEST-PAY-1"%string,
     None).
Proof.
  apply (X11_payment_workflow_served h_served order1
           (activity.background 1) (activity.background 1));
    first [reflexivity | vm_compute; discriminate].
Defined.

End PaymentWorkflowFacts.

Section FrameFacts.

Import workflows observe reasoning listener.

Lemma dispatch_framed (ds : list Delivery) :
  forall l l' t,
    dispatch signalHandler ds l = (l', t) -> inv l -> framed l l' t.
Proof.
  induction ds as [|d ds IH]; intros l l' t H Hinv.
  - simpl in H. injection H as <- <-. split; reflexivity.
  - destruct (inv_cases l Hinv) as [[Hl Hc]|[Hl Hc]].
    + cbn [dispatch] in H.
      destruct (signalHandler d l) as [l1 t1] eqn:Hs1.
      unfold signalHandler in Hs1. rewrite Hl in Hs1.
      destruct (signal d) eqn:Hs; injection Hs1 as <- <-.
      * rewrite dispatch_idle in H by reflexivity. injection H as <- <-.
        split; reflexivity.
      * match type of H with
        | context [dispatch _ _ ?l1] =>
            destruct (dispatch signalHandler ds l1) as [l2 t2] eqn:D;
            apply IH in D; [|unfold inv; simpl; rewrite Hc; reflexivity]
        end.
        injection H as <- <-. destruct D as [o v p y z c].
        simpl in *. split; simpl; auto.
    + rewrite dispatch_idle in H by assumption. injection H as <- <-.
      split; reflexivity.
Qed.

Lemma exec_bind_await_framed (h : History) {B} (o : Options) (t : task.t)
    (k : string * option error -> M Locals B) (m : Machine Locals) Q :
  inv (locals m) ->
  (forall l' t',
     listened (deliveries (h (waits m))) (locals m) l' t' ->
     framed (locals m) l' t' ->
     exec (k (result (h (waits m)), failure (h (waits m))))
          (mkMachine l' (markers m) (S (waits m)) (now (h (waits m))))
          (fun b m2 t2 =>
             Q b m2 (Invoked o t :: t' ++ Resumed (failure (h (waits m))) :: t2))) ->
  exec (bind (await h signalHandler o t) k) m Q.
Proof.
  intros Hinv H. unfold exec, bind, await in *.
  destruct (dispatch signalHandler _ _) as [l' t'] eqn:D.
  specialize (H l' t' (dispatch_listen _ _ _ _ D Hinv)
                (dispatch_framed _ _ _ _ D Hinv)).
  destruct (k _ _) as [[b m2] t2]. simpl in *.
  rewrite <- app_assoc. exact H.
Qed.

Lemma consumed_signals_app (t rest : list Event) :
  consumed_signals (t ++ rest) = consumed_signals t ++ consumed_signals rest.
Proof.
  induction t as [|ev t IH]; [reflexivity|].
  destruct ev; cbn; rewrite ?IH; reflexivity.
Qed.

Lemma cancel_terminal_app (a b : list ControlSignal) :
  existsb is_cancel a = false ->
  cancel_terminal (a ++ b) = cancel_terminal b.
Proof.
  induction a as [|s a IH]; [reflexivity|].
  destruct s; cbn; [discriminate | exact IH].
Qed.

End FrameFacts.

(** As [wf_step], keeping what each wait leaves untouched as well. *)
Ltac wf_step_framed :=
  lazymatch goal with
  | |- exec (bind (await _ signalHandler _ _) _) _ _ =>
      apply exec_bind_await_framed;
      [unfold inv; wf_simpl_goal;
       first [reflexivity | eapply l_inv; eassumption | assumption]
      |intros ? ? ? ?]; wf_simpl_goal
  | |- _ => wf_step
  end.

Ltac wf_run_framed := apply run_exec; repeat first [wf_step_framed | wf_branch].

Ltac wf_frames :=
  repeat match goal with
         | H : listener.framed _ _ _ |- _ =>
             let o := fresh "Horder" in
             let v := fresh "Hvalidation" in
             let p := fresh "Hprocessing" in
             let y := fresh "Hpayment" in
             let z := fresh "Hterminal" in
             let c := fresh "Hcancel" in
             destruct H as [o v p y z c]
         end;
  cbn [locals state with_state set_Status set_LastUpdated set_ValidationDone
       set_ProcessingDone set_PaymentDone WorkflowState.OrderID
       WorkflowState.ValidationDone WorkflowState.ProcessingDone
       WorkflowState.PaymentDone] in *.

Section ResultFacts.

Import workflows observe reasoning samples listener.

Lemma versioned_version_of (mk mk' : gmap string Z) (v : Z) :
  versioned mk "add-payment-processing" 1 v mk' -> v = version_of mk.
Proof.
  unfold version_of. intros [[-> _]|(-> & -> & _)]; reflexivity.
Qed.

(** The result of a run in closed form. *)
Lemma returned_verdict (h : History) (mk : gmap string Z) (t0 : Time)
    (order : Order.t) :
  returned (run h mk t0 order) = verdict h (version_of mk).
Proof.
  unfold verdict, process_verdict, delivered.
  wf_run; wf_facts; cbn [returned];
    match goal with
    | Hm : versioned _ _ _ _ _ |- _ =>
        pose proof (versioned_version_of _ _ _ Hm) as ->
    end.
  all: rewrite ?Z.geb_leb in *; rewrite ?Eversion, ?Efail, ?Efail0, ?Efail1.
  all: wf_flags; reflexivity.
Qed.

(** X12. The result of a run is fixed by what is reported for Validate,
    Payment and Process and by whether a Cancel arrives while Validate
    or Payment is in flight: two runs of the same instance that agree on
    the failures of the first three waits and on the Cancel deliveries
    during them return the same, whatever the Expedite signals, the
    clock, the results of the rollback and of the notifications, and
    the signals delivered later. *)
Theorem X12_result_independent :
  forall (h h' : History) (mk : gmap string Z) (t0 t0' : Time)
         (order : Order.t),
    (forall k : nat,
       (k <= 2)%nat ->
       failure (h k) = failure (h' k)
       /\ delivered SignalCancel (h k) = delivered SignalCancel (h' k)) ->
    returned (run h mk t0 order) = returned (run h' mk t0' order).
Proof.
  intros h h' mk t0 t0' order H.
  rewrite !returned_verdict. unfold verdict, process_verdict.
  destruct (H 0%nat ltac:(lia)) as [<- <-].
  destruct (H 1%nat ltac:(lia)) as [<- <-].
  destruct (H 2%nat ltac:(lia)) as [<- _].
  reflexivity.
Qed.

Lemma X12_witness :
  returned (run (h_signal SignalExpedite 0) fresh 0 order1)
  = returned (run (h_signal SignalCancel 3) fresh 7 order1).
Proof.
  apply (X12_result_independent (h_signal SignalExpedite 0)
           (h_signal SignalCancel 3) fresh 0 7 order1).
  intros [|[|[|k]]] Hk; try lia; split; reflexivity.
Defined.

(** X13. A run returns the cancellation error exactly when Validate
    succeeded and a Cancel was delivered while Validate was in flight
    or, for an instance with payment, Payment succeeded and a Cancel was
    delivered while it was in flight.  A Cancel that arrives later, or
    during a step that fails, never yields the cancellation error. *)
Theorem X13_cancel_outcome :
  forall (h : History) (mk : gmap string Z) (t0 : Time) (order : Order.t),
    returned (run h mk t0 order) = Some (Errorf "order cancelled by user" [])
    <-> succeeded (h 0%nat)
        && (delivered SignalCancel (h 0%nat)
            || (1 <=? version_of mk) && succeeded (h 1%nat)
               && delivered SignalCancel (h 1%nat)) = true.
Proof.
  intros h mk t0 order. rewrite returned_verdict.
  unfold verdict, process_verdict, succeeded.
  destruct (failure (h 0%nat)), (delivered SignalCancel (h 0%nat)),
    (1 <=? version_of mk), (failure (h 1%nat)),
    (delivered SignalCancel (h 1%nat)), (failure (h 2%nat));
    cbn; split; congruence.
Qed.

End ResultFacts.

Section RunFacts.

Import workflows observe reasoning samples listener.

(** X14. [RollbackOrder] is invoked at most once in a run: exactly once
    when Validate succeeded and the run returns an error (a later step
    failed, or the order was cancelled), and never when Validate failed
    or the run returns without error. *)
Theorem X14_rollback_once :
  forall (h : History) (mk : gmap string Z) (t0 : Time) (order : Order.t),
    List.filter is_rollback (invoked (trace (run h mk t0 order)))
    = (if succeeded (h 0%nat) && is_error (returned (run h mk t0 order))
       then [task.RollbackOrder order] else []).
Proof.
  intros h mk t0 order. unfold succeeded.
  wf_run; wf_facts; cbn [trace returned]; wf_observe;
    rewrite ?Efail; reflexivity.
Qed.

(** X15. Every run starts with [ValidateOrder], invoked exactly once;
    it hands out between two and five tasks, [ProcessOrder] at most
    once, all of them for the order the workflow was started with, and
    never a payment activity of its own. *)
Theorem X15_run_tasks :
  forall (h : History) (mk : gmap string Z) (t0 : Time) (order : Order.t),
    hd_error (invoked (trace (run h mk t0 order)))
    = Some (task.ValidateOrder order)
    /\ count is_validate (trace (run h mk t0 order)) = 1%nat
    /\ (count is_process (trace (run h mk t0 order)) <= 1)%nat
    /\ (2 <= length (invoked (trace (run h mk t0 order))) <= 5)%nat
    /\ Forall (concerns order) (invoked (trace (run h mk t0 order))).
Proof.
  intros h mk t0 order. unfold count.
  wf_run; wf_facts; cbn [trace]; wf_observe; cbn;
    repeat split; try lia; repeat constructor.
Qed.

End RunFacts.

Section OutcomeFacts.

Import workflows observe reasoning samples listener.

(** X16. A run returns without error exactly when its main sequence
    wrote the status Completed, and then the tasks it handed out are
    Validate, Payment (for an instance with payment), Process and the
    success notification, in this order and nothing else: no rollback,
    and the outcome of the notification does not matter. *)
Theorem X16_success_path :
  forall (h : History) (mk : gmap string Z) (t0 : Time) (order : Order.t),
    (returned (run h mk t0 order) = None
     <-> existsb is_completed
           (statuses_of MainSequence (trace (run h mk t0 order))) = true)
    /\ (returned (run h mk t0 order) = None ->
        exists e : bool,
          invoked (trace (run h mk t0 order))
          = success_tasks order (version_of mk) (notification e)).
Proof.
  intros h mk t0 order. unfold success_tasks.
  wf_run; wf_facts; cbn [trace returned]; wf_observe;
    match goal with
    | Hm : versioned _ _ _ _ _ |- _ =>
        pose proof (versioned_version_of _ _ _ Hm) as ->
    end;
    rewrite ?Z.geb_leb in *; rewrite ?Eversion; cbn.
  all: split; [split; congruence|]; try discriminate.
  all: intros _; first [exists true; reflexivity | exists false; reflexivity].
Qed.

(** X17. Every error a run returns is either the cancellation error --
    then a Cancel was consumed, the status Failed was never written by
    the main sequence and the rollback is the last task -- or the
    failure reported for one of the first three awaited tasks, wrapped
    once -- then the main sequence wrote Failed last and the last task
    is a notification of the failure to the customer. *)
Theorem X17_error_origin :
  forall (h : History) (mk : gmap string Z) (t0 : Time) (order : Order.t)
         (e : error),
    returned (run h mk t0 order) = Some e ->
    (e = Errorf "order cancelled by user" []
     /\ consumed SignalCancel (trace (run h mk t0 order)) = true
     /\ ~ In OrderStatusFailed
            (statuses_of MainSequence (trace (run h mk t0 order)))
     /\ List.last (invoked (trace (run h mk t0 order)))
                  (task.ValidateOrder order)
        = task.RollbackOrder order)
    \/ (exists (e0 : error) (k : nat) (message : string),
          Unwrap e = Some e0
          /\ failure (h k) = Some e0
          /\ (k <= 2)%nat
          /\ List.last (statuses_of MainSequence (trace (run h mk t0 order)))
                       OrderStatusPending
             = OrderStatusFailed
          /\ List.last (invoked (trace (run h mk t0 order)))
                       (task.ValidateOrder order)
             = task.NotifyCustomer order message
          /\ success_message message = false).
Proof.
  intros h mk t0 order.
  wf_run; wf_facts; cbn [trace returned]; wf_observe;
    intros err Herr; try discriminate Herr; injection Herr as <-.
  all: first
         [ right; do 3 eexists;
           split; [reflexivity|];
           split; [eassumption|];
           split; [lia|];
           repeat split; reflexivity
         | left; wf_flags; repeat split; try reflexivity;
           cbn; intuition discriminate ].
Qed.

Lemma X17_witness :
  exists (e0 : error) (k : nat),
    Unwrap (Wrapf "payment failed: %w" (Remote "card declined")) = Some e0
    /\ failure (h_fail (Remote "card declined") 1 k) = Some e0.
Proof.
  destruct (X17_error_origin (h_fail (Remote "card declined") 1) fresh 0 order1
              (Wrapf "payment failed: %w" (Remote "card declined")) eq_refl)
    as [(H & _)|(e0 & k & m & H1 & H2 & _)].
  - discriminate H.
  - exists e0, k. split; assumption.
Defined.

End OutcomeFacts.

Section StateFacts.

Import workflows observe reasoning samples listener.

(** X18. What the [state] query answers once a run is over: the order
    id is that of the order; [ValidationDone] tells whether Validate
    succeeded; [PaymentDone] whether the instance has payment, Validate
    succeeded with no Cancel delivered meanwhile, and Payment succeeded;
    [ProcessingDone] whether the run returned without error.  No signal
    changes any of them. *)
Theorem X18_progress_flags :
  forall (h : History) (mk : gmap string Z) (t0 : Time) (order : Order.t),
    let s := state (final (run h mk t0 order)) in
    WorkflowState.OrderID s = Order.ID order
    /\ WorkflowState.ValidationDone s = succeeded (h 0%nat)
    /\ WorkflowState.PaymentDone s
       = (1 <=? version_of mk) && succeeded (h 0%nat)
         && negb (delivered SignalCancel (h 0%nat)) && succeeded (h 1%nat)
    /\ WorkflowState.ProcessingDone s
       = negb (is_error (returned (run h mk t0 order))).
Proof.
  intros h mk t0 order. unfold succeeded, delivered.
  wf_run_framed; wf_facts; wf_frames; cbn [final returned];
    match goal with
    | Hm : versioned _ _ _ _ _ |- _ =>
        pose proof (versioned_version_of _ _ _ Hm) as ->
    end;
    rewrite ?Z.geb_leb in *; rewrite ?Eversion, ?Efail, ?Efail0, ?Efail1.
  all: wf_flags; cbn [is_error negb andb orb].
  all: rewrite ?andb_false_r; cbn [andb].
  all: repeat split; congruence.
Qed.

End StateFacts.

(** Push [consumed_signals] through a trace, and drop the waits during
    which the listener had already left its loop. *)
Ltac wf_signals :=
  repeat match goal with
         | H : true = true -> _ /\ ?t = [] |- _ =>
             destruct (H eq_refl) as [_ ->]; clear H
         end;
  repeat first
    [ progress cbn [listener.consumed_signals app]
    | rewrite consumed_signals_app ].

Section SignalFacts.

Import workflows observe reasoning samples listener.

(** X19. The listener consumes at most one Cancel in a run and nothing
    after it: the signals consumed are some Expedites followed by at
    most one Cancel, whatever is delivered. *)
Theorem X19_cancel_is_last_signal :
  forall (h : History) (mk : gmap string Z) (t0 : Time) (order : Order.t),
    cancel_terminal (consumed_signals (trace (run h mk t0 order))) = true.
Proof.
  intros h mk t0 order.
  wf_run_framed; wf_facts; wf_frames; cbn [trace]; wf_flags; wf_signals.
  all: repeat (rewrite cancel_terminal_app by assumption);
    cbn [app cancel_terminal]; rewrite ?app_nil_r;
    first [reflexivity | assumption].
Qed.

End SignalFacts.

Section NotificationFacts.

Import workflows observe reasoning samples listener.

Lemma worded_schedule (order : Order.t) (tr : list Event) :
  Forall (worded order) (schedule false false tr) ->
  forall pre o o' message post,
    tr = pre ++ Invoked o (task.NotifyCustomer o' message) :: post ->
    success_message message = true ->
    o' = order /\ message = notification (consumed SignalExpedite pre).
Proof.
  intros H pre o o' message post -> Hm.
  pose proof (proj1 (List.Forall_forall _ _) H _
                (schedule_complete pre post o _)) as Hw.
  unfold worded in Hw. cbn in Hw. rewrite Hm in Hw.
  specialize (Hw eq_refl). injection Hw as -> ->. split; reflexivity.
Qed.

(** X20. The success notification is worded after the expedite flag at
    the moment it is sent: it is the expedited text exactly when an
    Expedite was consumed before the notification is handed out -- during
    Validate, Payment or Process -- and an Expedite that arrives while
    the notification is in flight changes nothing. *)
Theorem X20_notification_wording :
  forall (h : History) (mk : gmap string Z) (t0 : Time) (order : Order.t)
         (pre : list Event) (o : Options) (o' : Order.t) (message : string)
         (post : list Event),
    trace (run h mk t0 order)
    = pre ++ Invoked o (task.NotifyCustomer o' message) :: post ->
    success_message message = true ->
    o' = order /\ message = notification (consumed SignalExpedite pre).
Proof.
  intros h mk t0 order. apply worded_schedule.
  wf_run; wf_facts; cbn [trace]; wf_observe; wf_flags.
  all: repeat constructor.
  all: unfold worded; cbn; try discriminate.
  all: intros _; rewrite ?orb_false_r, ?orb_true_r; try reflexivity.
  all: repeat match goal with
              | |- context [consumed SignalExpedite ?t] =>
                  destruct (consumed SignalExpedite t)
              end; cbn in *; congruence.
Qed.

Lemma X20_witness :
  "Your expedited order has been processed successfully"%string
  = notification
      (consumed SignalExpedite
         (firstn 20 (trace (run (h_signal SignalExpedite 0) fresh 0 order1)))).
Proof.
  apply (X20_notification_wording (h_signal SignalExpedite 0) fresh 0 order1
           (firstn 20 (trace (run (h_signal SignalExpedite 0) fresh 0 order1)))
           (ForActivity activityOptions) order1
           "Your expedited order has been processed successfully"
           (skipn 21 (trace (run (h_signal SignalExpedite 0) fresh 0 order1))));
    [vm_compute; reflexivity | reflexivity].
Defined.

End NotificationFacts.

Section FailureFacts.

Import workflows observe reasoning samples listener.

(** X21. When Validate is reported as failed with [e], the run returns
    the validation failure that wraps [e], whatever signals arrive: the
    only other task is the notification of the failure, nothing is
    rolled back, and the main sequence writes Pending, Pending, Failed. *)
Theorem X21_validation_failure :
  forall (h : History) (mk : gmap string Z) (t0 : Time) (order : Order.t)
         (e : error),
    failure (h 0%nat) = Some e ->
    returned (run h mk t0 order) = Some (Wrapf "validation failed: %w" e)
    /\ invoked (trace (run h mk t0 order))
       = [task.ValidateOrder order;
          task.NotifyCustomer order "Order validation failed"]
    /\ statuses_of MainSequence (trace (run h mk t0 order))
       = [OrderStatusPending; OrderStatusPending; OrderStatusFailed].
Proof.
  intros h mk t0 order e He.
  wf_run; wf_facts; cbn [trace returned]; wf_observe; try congruence.
  repeat split; congruence.
Qed.

Lemma X21_witness :
  returned (run (h_fail (Remote "rejected") 0) fresh 0 order1)
  = Some (Wrapf "validation failed: %w" (Remote "rejected")).
Proof.
  apply (X21_validation_failure (h_fail (Remote "rejected") 0) fresh 0 order1
           (Remote "rejected")).
  reflexivity.
Defined.

(** X22. For an instance with payment, when Validate succeeded with no
    Cancel delivered meanwhile and the payment workflow is reported as
    failed with [e], the run returns the payment failure that wraps [e]:
    the order is rolled back, then the customer is notified of the
    failure, [ProcessOrder] is never invoked, and the main sequence
    writes Failed last -- also when a Cancel arrived during Payment. *)
Theorem X22_payment_failure :
  forall (h : History) (mk : gmap string Z) (t0 : Time) (order : Order.t)
         (e : error),
    1 <= version_of mk ->
    failure (h 0%nat) = None ->
    delivered SignalCancel (h 0%nat) = false ->
    failure (h 1%nat) = Some e ->
    returned (run h mk t0 order) = Some (Wrapf "payment failed: %w" e)
    /\ invoked (trace (run h mk t0 order))
       = [task.ValidateOrder order; task.PaymentWorkflow order;
          task.RollbackOrder order;
          task.NotifyCustomer order "Payment processing failed"]
    /\ statuses_of MainSequence (trace (run h mk t0 order))
       = [OrderStatusPending; OrderStatusPending; OrderStatusValidated;
          OrderStatusFailed].
Proof.
  intros h mk t0 order e Hv H0 Hc H1. unfold delivered in Hc.
  wf_run; wf_facts; cbn [trace returned]; wf_observe;
    match goal with
    | Hm : versioned _ _ _ _ _ |- _ =>
        pose proof (versioned_version_of _ _ _ Hm) as ->
    end;
    rewrite ?Hc in *; cbn [orb andb negb] in *; try congruence.
  all: try (apply Z.geb_leb in Eversion || rewrite Z.geb_leb in Eversion).
  all: try (apply Z.leb_gt in Eversion; lia).
  all: repeat split; congruence.
Qed.

Lemma X22_witness :
  returned (run (h_fail (Remote "card declined") 1) fresh 0 order1)
  = Some (Wrapf "payment failed: %w" (Remote "card declined")).
Proof.
  apply (X22_payment_failure (h_fail (Remote "card declined") 1) fresh 0 order1
           (Remote "card declined"));
    first [reflexivity | vm_compute; discriminate].
Defined.

Lemma scheduled_all (P : Options -> task.t -> Prop) (tr : list Event) :
  Forall (fun x => P (with_options x) (scheduled_task x))
         (schedule false false tr) ->
  forall pre o t post, tr = pre ++ Invoked o t :: post -> P o t.
Proof.
  intros H pre o t post ->.
  exact (proj1 (List.Forall_forall _ _) H _ (schedule_complete pre post o t)).
Qed.

(** X23. The rollback is handed out with different options on the two
    ways to it: after a cancellation with a start-to-close timeout of
    10 s and nothing else (no heartbeat timeout, no retry policy), after
    a failed Payment or Process with the standard options of the
    workflow. *)
Theorem X23_rollback_options :
  forall (h : History) (mk : gmap string Z) (t0 : Time) (order : Order.t)
         (pre : list Event) (o : Options) (o' : Order.t) (post : list Event),
    trace (run h mk t0 order)
    = pre ++ Invoked o (task.RollbackOrder o') :: post ->
    (returned (run h mk t0 order) = Some (Errorf "order cancelled by user" [])
     -> o = ForActivity (ActivityOptions.mk (10 * Second) 0 None))
    /\ (returned (run h mk t0 order)
        <> Some (Errorf "order cancelled by user" [])
        -> o = ForActivity activityOptions).
Proof.
  intros h mk t0 order pre o o' post Htr.
  assert (F : Forall
                (fun x =>
                   forall o', scheduled_task x = task.RollbackOrder o' ->
                   (returned (run h mk t0 order)
                    = Some (Errorf "order cancelled by user" [])
                    -> with_options x
                       = ForActivity (ActivityOptions.mk (10 * Second) 0 None))
                   /\ (returned (run h mk t0 order)
                       <> Some (Errorf "order cancelled by user" [])
                       -> with_options x = ForActivity activityOptions))
                (schedule false false (trace (run h mk t0 order)))).
  { clear Htr.
    wf_run; wf_facts; cbn [trace returned]; wf_observe.
    all: repeat first [apply List.Forall_cons | apply List.Forall_nil].
    all: cbn; intros ? ?; try discriminate.
    all: split; intros ?; first [reflexivity | congruence]. }
  exact (scheduled_all
           (fun o t =>
              forall o', t = task.RollbackOrder o' ->
              (returned (run h mk t0 order)
               = Some (Errorf "order cancelled by user" [])
               -> o = ForActivity (ActivityOptions.mk (10 * Second) 0 None))
              /\ (returned (run h mk t0 order)
                  <> Some (Errorf "order cancelled by user" [])
                  -> o = ForActivity activityOptions))
           _ F pre o _ post Htr o' eq_refl).
Qed.

Lemma X23_witness :
  ForActivity rollbackOptions
  = ForActivity (ActivityOptions.mk (10 * Second) 0 None).
Proof.
  apply (X23_rollback_options (h_signal SignalCancel 0) fresh 0 order1
           (firstn 12 (trace (run (h_signal SignalCancel 0) fresh 0 order1)))
           (ForActivity rollbackOptions) order1
           (skipn 13 (trace (run (h_signal SignalCancel 0) fresh 0 order1))));
    [vm_compute; reflexivity | reflexivity].
Defined.

End FailureFacts.

Section QuietRules.

Import workflows observe reasoning listener.

Lemma exec_bind_await_quiet (h : History) {B} (o : Options) (t : task.t)
    (k : string * option error -> M Locals B) (m : Machine Locals) Q :
  deliveries (h (waits m)) = [] ->
  exec (k (result (h (waits m)), failure (h (waits m))))
       (mkMachine (locals m) (markers m) (S (waits m)) (now (h (waits m))))
       (fun b m2 t2 =>
          Q b m2 (Invoked o t :: Resumed (failure (h (waits m))) :: t2)) ->
  exec (bind (await h signalHandler o t) k) m Q.
Proof.
  intros Hq H. unfold exec, bind, await in *. rewrite Hq. cbn [dispatch].
  destruct (k _ _) as [[b m2] t2]. exact H.
Qed.

End QuietRules.

(** As [wf_step], for a history [h] known to deliver no signal. *)
Ltac wf_step_quiet Hq :=
  lazymatch goal with
  | |- exec (bind (await _ signalHandler _ _) _) _ _ =>
      apply exec_bind_await_quiet; [apply Hq|]; wf_simpl_goal
  | |- _ => wf_step
  end.

Ltac wf_run_quiet Hq :=
  apply run_exec; repeat first [wf_step_quiet Hq | wf_branch].

Section QuietFacts.

Import workflows observe reasoning samples listener.

(** X24. When no signal is delivered during a run, the status the
    [state] query finally answers tells the result: Completed when the
    run returns without error, Failed when it returns an error; the
    statuses written are those of the main sequence alone, no signal is
    consumed, and a successful run ends with the standard wording of
    the notification. *)
Theorem X24_quiet_run :
  forall (h : History) (mk : gmap string Z) (t0 : Time) (order : Order.t),
    (forall k : nat, deliveries (h k) = []) ->
    final_status (run h mk t0 order)
    = (if is_error (returned (run h mk t0 order))
       then OrderStatusFailed else OrderStatusCompleted)
    /\ statuses (trace (run h mk t0 order))
       = statuses_of MainSequence (trace (run h mk t0 order))
    /\ consumed_signals (trace (run h mk t0 order)) = []
    /\ (returned (run h mk t0 order) = None ->
        invoked (trace (run h mk t0 order))
        = success_tasks order (version_of mk) (notification false)).
Proof.
  intros h mk t0 order Hq. unfold final_status, success_tasks.
  wf_run_quiet Hq; cbn [trace returned final]; wf_simpl;
    match goal with
    | Hm : versioned _ _ _ _ _ |- _ =>
        pose proof (versioned_version_of _ _ _ Hm) as ->
    end;
    rewrite ?Z.geb_leb in *; rewrite ?Eversion; cbn.
  all: repeat split; try reflexivity; discriminate.
Qed.

Lemma X24_witness :
  final_status (run h_quiet fresh 0 order1) = OrderStatusCompleted
  /\ final_status (run (h_fail (Remote "rejected") 0) fresh 0 order1)
     = OrderStatusFailed.
Proof.
  split.
  - apply (X24_quiet_run h_quiet fresh 0 order1). reflexivity.
  - apply (X24_quiet_run (h_fail (Remote "rejected") 0) fresh 0 order1).
    intros k. unfold h_fail. destruct (k =? 0)%nat; reflexivity.
Defined.

End QuietFacts.
